(** * ReMidt Renovasjon: a shallow embedding of the Home Assistant integration

    The integration polls a waste-collection portal and renders the
    disposals it fetched as calendar events and per-fraction binary
    sensors.  This file embeds the entity platforms and the refresh
    service as pure functions over explicit state, and proves the
    properties the specification lists for them.

    Conventions of the embedding:
    - a Python [dict] is an insertion-ordered association list ([PyDict]):
      [.items()], [.keys()] and [.values()] iterate in that order, which
      decides the order of created entities and of same-day events;
    - an exception is a value of [exn]; a call that may raise returns a
      [result];
    - a Python [str] is the byte string of its UTF-8 form; [str.lower] is
      the interpreter's Unicode case mapping, a parameter of which only
      its effect on ASCII strings is ever assumed;
    - [datetime.date] is the triple year/month/day that Python stores, with
      Python's bounds (the last date is 9999-12-31, and stepping past it
      raises [OverflowError]);
    - an entity holds a reference to its coordinator, whose [data] is
      replaced on every refresh; entity methods therefore take the
      coordinator's current state as an argument. *)

From Stdlib Require Import ZArith List String Ascii Bool Lia.
From Stdlib Require Import Permutation Sorted.
Import ListNotations.

Set Implicit Arguments.
Open Scope string_scope.
Open Scope Z_scope.
Open Scope list_scope.

(** ** Exceptions and results *)

Inductive exn : Type :=
| OverflowError
| AttributeError
| KeyError
| RuntimeError
| ConfigEntryNotReady
| ServiceValidationError (message : string).

Inductive result (A : Type) : Type :=
| Ok (value : A)
| Raise (error : exn).

Arguments Ok {A} value.
Arguments Raise {A} error.

Definition bind {A B : Type} (r : result A) (k : A -> result B) : result B :=
  match r with
  | Ok a => k a
  | Raise e => Raise e
  end.

Notation "x <- r ;; k" := (bind r (fun x => k))
  (at level 61, r at next level, right associativity).

(** ** Python strings

    A string is the byte string of its UTF-8 form.  [str.lower] maps the
    letters of every script and is not defined here: the platforms take it
    as a parameter.  On a string of ASCII characters it is [ascii_lower]. *)

Module PyStr.

Definition ascii_lower_char (c : ascii) : ascii :=
  let n := nat_of_ascii c in
  if (Nat.leb 65 n && Nat.leb n 90)%bool then ascii_of_nat (n + 32) else c.

Fixpoint ascii_lower (s : string) : string :=
  match s with
  | EmptyString => EmptyString
  | String c rest => String (ascii_lower_char c) (ascii_lower rest)
  end.

(** [s.isascii()] *)
Fixpoint is_ascii (s : string) : bool :=
  match s with
  | EmptyString => true
  | String c rest => (Nat.ltb (nat_of_ascii c) 128 && is_ascii rest)%bool
  end.

(** What is known of [str.lower]: on ASCII strings it lowers the letters
    A to Z and nothing else. *)
Definition lowers_ascii (lower : string -> string) : Prop :=
  forall s, is_ascii s = true -> lower s = ascii_lower s.

(** [s.replace(old, new)] for one-character ASCII [old] and [new] (an ASCII
    byte never lies inside the UTF-8 form of another character). *)
Fixpoint replace (old new : ascii) (s : string) : string :=
  match s with
  | EmptyString => EmptyString
  | String c rest =>
      String (if Ascii.eqb c old then new else c) (replace old new rest)
  end.

(** [c * n]: the character repeated. *)
Fixpoint repeat (c : ascii) (n : nat) : string :=
  match n with
  | O => EmptyString
  | S m => String c (repeat c m)
  end.

(** Truthiness of a string: the empty string is falsy. *)
Definition truthy (s : string) : bool :=
  match s with
  | EmptyString => false
  | String _ _ => true
  end.

End PyStr.

(** ** Python dictionaries with string keys *)

Module PyDict.

Section Ops.
Variable V : Type.

Definition t : Type := list (string * V).

Fixpoint get (d : t) (k : string) : option V :=
  match d with
  | [] => None
  | (k', v) :: rest => if String.eqb k' k then Some v else get rest k
  end.

(** [d.get(k, default)] *)
Definition get_default (d : t) (k : string) (default : V) : V :=
  match get d k with
  | Some v => v
  | None => default
  end.

(** [k in d] *)
Definition contains (d : t) (k : string) : bool :=
  match get d k with
  | Some _ => true
  | None => false
  end.

(** [d[k] = v]: an existing key keeps its position, a new key goes last. *)
Fixpoint set (d : t) (k : string) (v : V) : t :=
  match d with
  | [] => [(k, v)]
  | (k', v') :: rest =>
      if String.eqb k' k then (k', v) :: rest else (k', v') :: set rest k v
  end.

Definition items (d : t) : list (string * V) := d.
Definition keys (d : t) : list string := map fst d.
Definition values (d : t) : list V := map snd d.

(** The representation invariant of a dictionary: no key twice. *)
Definition wf (d : t) : Prop := NoDup (keys d).

End Ops.

End PyDict.

(** ** [datetime.date], [datetime.datetime] and [timedelta(days=n)] *)

Module Date.

Record t : Type := make { year : Z; month : Z; day : Z }.

Definition MINYEAR : Z := 1.
Definition MAXYEAR : Z := 9999.

Definition is_leap (y : Z) : bool :=
  ((y mod 4 =? 0) && (negb (y mod 100 =? 0) || (y mod 400 =? 0)))%bool.

Definition days_in_month (y m : Z) : Z :=
  if m =? 2 then (if is_leap y then 29 else 28)
  else if ((m =? 4) || (m =? 6) || (m =? 9) || (m =? 11))%bool then 30
  else 31.

(** What the constructor of [date] accepts. *)
Definition valid (d : t) : Prop :=
  MINYEAR <= year d <= MAXYEAR /\
  1 <= month d <= 12 /\
  1 <= day d <= days_in_month (year d) (month d).

(** [date.max] *)
Definition max : t := make MAXYEAR 12 31.

(** Dates compare as the tuples (year, month, day). *)
Definition ltb (a b : t) : bool :=
  ((year a <? year b) ||
   ((year a =? year b) &&
    ((month a <? month b) ||
     ((month a =? month b) && (day a <? day b)))))%bool.

Definition eqb (a b : t) : bool :=
  ((year a =? year b) && (month a =? month b) && (day a =? day b))%bool.

Definition leb (a b : t) : bool := (ltb a b || eqb a b)%bool.

Definition le (a b : t) : Prop := leb a b = true.
Definition lt (a b : t) : Prop := ltb a b = true.

(** [d + timedelta(days=1)]: the following day; there is none after
    [date.max]. *)
Definition next_day (d : t) : result t :=
  if leb max d then Raise OverflowError
  else if day d <? days_in_month (year d) (month d)
       then Ok (make (year d) (month d) (day d + 1))
  else if month d <? 12 then Ok (make (year d) (month d + 1) 1)
  else Ok (make (year d + 1) 1 1).

(** [d + timedelta(days=n)] for [n >= 0]. *)
Fixpoint add_days (d : t) (n : nat) : result t :=
  match n with
  | O => Ok d
  | S m => d' <- next_day d ;; add_days d' m
  end.

(** [isoformat]: ["%04d-%02d-%02d"]. *)
Definition digit (n : Z) : ascii := ascii_of_nat (48 + Z.to_nat (n mod 10)).

Definition pad2 (n : Z) : string :=
  String (digit (n / 10)) (String (digit n) EmptyString).

Definition pad4 (n : Z) : string :=
  String (digit (n / 1000)) (String (digit (n / 100)) (pad2 n)).

Definition isoformat (d : t) : string :=
  (pad4 (year d) ++ "-" ++ pad2 (month d) ++ "-" ++ pad2 (day d))%string.

End Date.

Module Datetime.

(** A [datetime]: its calendar date and the microseconds since midnight. *)
Record t : Type := make { date : Date.t; time_of_day : Z }.

End Datetime.

(** ** The data model (api.py, coordinator.py) *)

Module WasteDisposal.

Record t : Type := make {
  date : Datetime.t;
  fraction : string;
  description : option string;
  symbol_id : Z
}.

End WasteDisposal.

Module RenovasjonData.

Record t : Type := make {
  address_id : string;
  address_name : string;
  municipality : string;
  disposals_by_fraction : PyDict.t (list WasteDisposal.t)
}.

(** Modelled from the spec: the [fractions] property of coordinator.py,
    which is not among the sources; the spec defines it as the key set of
    [disposals_by_fraction]. *)
Definition fractions (data : t) : list string :=
  PyDict.keys (disposals_by_fraction data).

(** The invariant of a published snapshot: a dictionary, each disposal
    under the key of its own fraction. *)
Definition grouped (data : t) : Prop :=
  forall k ds d,
    In (k, ds) (PyDict.items (disposals_by_fraction data)) ->
    In d ds -> WasteDisposal.fraction d = k.

(** The disposals of a snapshot, each with the key it is stored under, in
    iteration order. *)
Definition stored (data : t) : list (string * WasteDisposal.t) :=
  flat_map (fun kv => map (pair (fst kv)) (snd kv))
           (PyDict.items (disposals_by_fraction data)).

End RenovasjonData.

Module ConfigEntry.

Record t : Type := make {
  entry_id : string;
  version : Z;
  domain : string;
  title : string;
  data : PyDict.t string;
  options : PyDict.t Z
}.

End ConfigEntry.

(** A Python exception object: its class and what [str] gives for it. *)
Module PyException.

Record t : Type := make { class_name : string; message : string }.

Definition str (e : t) : string := message e.

End PyException.

(** The coordinator as the platforms see it.  [refresh_count] is a ghost
    field: the number of times [async_refresh] was awaited on it. *)
Module Coordinator.

Record t : Type := make {
  config_entry : ConfigEntry.t;
  data : option RenovasjonData.t;
  last_update_success : bool;
  last_exception : option PyException.t;
  refresh_count : nat
}.

End Coordinator.

(** [hass.data[DOMAIN]]: the coordinators by config-entry id. *)
Definition Registry : Type := PyDict.t Coordinator.t.

(** [d[k]] on the registry. *)
Definition registry_lookup (registry : Registry) (entry_id : string)
  : result Coordinator.t :=
  match PyDict.get registry entry_id with
  | Some coordinator => Ok coordinator
  | None => Raise KeyError
  end.

(** ** calendar.py *)

Module CalendarEvent.

Record t : Type := make {
  start : Date.t;
  end_ : Date.t;
  summary : string;
  description : option string;
  uid : string
}.

End CalendarEvent.

Module Calendar.

(** [list.sort(key=lambda e: e.start)]: a stable sort on the start date. *)
Fixpoint insert_by_start (e : CalendarEvent.t) (sorted : list CalendarEvent.t)
  : list CalendarEvent.t :=
  match sorted with
  | [] => [e]
  | e' :: rest =>
      if Date.leb (CalendarEvent.start e) (CalendarEvent.start e')
      then e :: e' :: rest
      else e' :: insert_by_start e rest
  end.

Fixpoint sort_by_start (events : list CalendarEvent.t) : list CalendarEvent.t :=
  match events with
  | [] => []
  | e :: rest => insert_by_start e (sort_by_start rest)
  end.

(** The attributes a [RenovasjonCalendar] sets on itself. *)
Record RenovasjonCalendar : Type := make {
  _attr_unique_id : string;
  _attr_name : string;
  device_name : string;
  device_model : string
}.

Definition __init__ (coordinator : Coordinator.t) : result RenovasjonCalendar :=
  let unique_id :=
    (ConfigEntry.entry_id (Coordinator.config_entry coordinator)
       ++ "_calendar")%string in
  match Coordinator.data coordinator with
  | None => Raise AttributeError
  | Some data =>
      Ok (make unique_id "Renovasjon"
            ("Renovasjon " ++ RenovasjonData.address_name data)%string
            (RenovasjonData.municipality data))
  end.

Section WithConst.

(** const.py is not among the sources: its table of known fractions is a
    parameter.  Each entry maps option names to strings. *)
Variable WASTE_FRACTIONS : PyDict.t (PyDict.t string).

(** [str.lower] *)
Variable str_lower : string -> string.

Definition translation_key_of (fraction : string) : string :=
  let fraction_config := PyDict.get_default WASTE_FRACTIONS fraction [] in
  PyDict.get_default fraction_config "translation_key"
    (PyStr.replace " " "_" (str_lower fraction)).

Definition event_uid (self : RenovasjonCalendar) (translation_key : string)
    (event_date : Date.t) : string :=
  (_attr_unique_id self ++ "_" ++ translation_key ++ "_"
     ++ Date.isoformat event_date)%string.

(** The inner loop: [for disposal in disposals]. *)
Fixpoint events_of_disposals (self : RenovasjonCalendar)
    (fraction translation_key : string) (start end_ : Date.t)
    (disposals : list WasteDisposal.t) (events : list CalendarEvent.t)
  : result (list CalendarEvent.t) :=
  match disposals with
  | [] => Ok events
  | disposal :: rest =>
      let event_date := Datetime.date (WasteDisposal.date disposal) in
      if (Date.leb start event_date && Date.leb event_date end_)%bool then
        event_end <- Date.add_days event_date 1 ;;
        events_of_disposals self fraction translation_key start end_ rest
          (events ++
             [CalendarEvent.make event_date event_end fraction
                (WasteDisposal.description disposal)
                (event_uid self translation_key event_date)])
      else
        events_of_disposals self fraction translation_key start end_ rest
          events
  end.

(** The outer loop: [for fraction, disposals in ....items()]. *)
Fixpoint events_of_fractions (self : RenovasjonCalendar) (start end_ : Date.t)
    (items : list (string * list WasteDisposal.t))
    (events : list CalendarEvent.t) : result (list CalendarEvent.t) :=
  match items with
  | [] => Ok events
  | (fraction, disposals) :: rest =>
      let translation_key := translation_key_of fraction in
      events' <- events_of_disposals self fraction translation_key start end_
                   disposals events ;;
      events_of_fractions self start end_ rest events'
  end.

Definition _get_events_for_range (self : RenovasjonCalendar)
    (coordinator : Coordinator.t) (start end_ : Date.t)
  : result (list CalendarEvent.t) :=
  match Coordinator.data coordinator with
  | None => Ok []
  | Some data =>
      events <- events_of_fractions self start end_
                  (PyDict.items (RenovasjonData.disposals_by_fraction data))
                  [] ;;
      Ok (sort_by_start events)
  end.

(** The [event] property.  It reads the clock twice: [today] is what the
    first [date.today()] returns (the start of the window) and [later]
    what the second returns (from which the end is counted). *)
Definition event (self : RenovasjonCalendar) (coordinator : Coordinator.t)
    (today later : Date.t) : result (option CalendarEvent.t) :=
  match Coordinator.data coordinator with
  | None => Ok None
  | Some _ =>
      window_end <- Date.add_days later 365 ;;
      events <- _get_events_for_range self coordinator today window_end ;;
      match events with
      | [] => Ok None
      | first :: _ => Ok (Some first)
      end
  end.

Definition async_get_events (self : RenovasjonCalendar)
    (coordinator : Coordinator.t) (start_date end_date : Datetime.t)
  : result (list CalendarEvent.t) :=
  _get_events_for_range self coordinator
    (Datetime.date start_date) (Datetime.date end_date).

(** [async_setup_entry]: one calendar entity. *)
Definition async_setup_entry (hass_data : Registry) (entry : ConfigEntry.t)
  : result (list RenovasjonCalendar) :=
  coordinator <- registry_lookup hass_data (ConfigEntry.entry_id entry) ;;
  calendar <- __init__ coordinator ;;
  Ok [calendar].

End WithConst.

End Calendar.

(** ** binary_sensor.py *)

Module BinarySensor.

(** The attributes a [RenovasjonCollectionTodaySensor] sets on itself. *)
Record RenovasjonCollectionTodaySensor : Type := make {
  _fraction : string;
  _icon : string;
  _attr_unique_id : string;
  _attr_translation_key : string;
  _attr_name : string;
  device_name : string;
  device_model : string
}.

Definition CHECK_ICON : string := "mdi:calendar-check".

Section WithConst.

(** The table of known fractions of const.py and [str.lower], as in
    [Calendar]. *)
Variable WASTE_FRACTIONS : PyDict.t (PyDict.t string).
Variable str_lower : string -> string.

Definition __init__ (coordinator : Coordinator.t) (fraction : string)
  : result RenovasjonCollectionTodaySensor :=
  let fraction_config := PyDict.get_default WASTE_FRACTIONS fraction [] in
  let translation_key :=
    PyDict.get_default fraction_config "translation_key"
      (PyStr.replace " " "_" (str_lower fraction)) in
  let icon := PyDict.get_default fraction_config "icon" "mdi:calendar-check" in
  let entry_id := ConfigEntry.entry_id (Coordinator.config_entry coordinator) in
  match Coordinator.data coordinator with
  | None => Raise AttributeError
  | Some data =>
      Ok (make fraction icon
            (entry_id ++ "_" ++ fraction ++ "_today")%string
            (translation_key ++ "_today")%string
            (fraction ++ " today")%string
            ("Renovasjon " ++ RenovasjonData.address_name data)%string
            (RenovasjonData.municipality data))
  end.

(** The [is_on] property; [now] is what [dt_util.now()] returns. *)
Definition is_on (self : RenovasjonCollectionTodaySensor)
    (coordinator : Coordinator.t) (now : Datetime.t) : option bool :=
  match Coordinator.data coordinator with
  | None => None
  | Some data =>
      let disposals :=
        PyDict.get_default (RenovasjonData.disposals_by_fraction data)
          (_fraction self) [] in
      let today := Datetime.date now in
      Some (existsb
              (fun d => Date.eqb (Datetime.date (WasteDisposal.date d)) today)
              disposals)
  end.

(** The [icon] property: [None] and [False] are both falsy. *)
Definition icon (self : RenovasjonCollectionTodaySensor)
    (coordinator : Coordinator.t) (now : Datetime.t) : string :=
  match is_on self coordinator now with
  | Some true => "mdi:calendar-check"
  | _ => _icon self
  end.

Definition extra_state_attributes (self : RenovasjonCollectionTodaySensor)
  : PyDict.t string :=
  [("fraction"%string, _fraction self)].

(** [_handle_coordinator_update] writes the entity's state to the host; the
    entity itself stays as it is. *)
Definition _handle_coordinator_update (self : RenovasjonCollectionTodaySensor)
  : RenovasjonCollectionTodaySensor := self.

(** The loop of [async_setup_entry]: [for fraction in ...fractions]. *)
Fixpoint create_sensors (coordinator : Coordinator.t) (fractions : list string)
    (entities : list RenovasjonCollectionTodaySensor)
  : result (list RenovasjonCollectionTodaySensor) :=
  match fractions with
  | [] => Ok entities
  | fraction :: rest =>
      sensor <- __init__ coordinator fraction ;;
      create_sensors coordinator rest (entities ++ [sensor])
  end.

(** The host's [async_config_entry_first_refresh]: it polls once, stores
    the outcome in the coordinator, and raises when the poll failed. *)
Variable async_config_entry_first_refresh :
  Coordinator.t -> result Coordinator.t.

(** [async_setup_entry] returns the coordinator as the first refresh left
    it and the entities handed to [async_add_entities].  A snapshot is a
    plain record (the tests build it field by field), so
    [if coordinator.data:] tests it against [None]. *)
Definition async_setup_entry (hass_data : Registry) (entry : ConfigEntry.t)
  : result (Coordinator.t * list RenovasjonCollectionTodaySensor) :=
  coordinator <- registry_lookup hass_data (ConfigEntry.entry_id entry) ;;
  coordinator <- async_config_entry_first_refresh coordinator ;;
  entities <-
    match Coordinator.data coordinator with
    | Some data =>
        create_sensors coordinator (RenovasjonData.fractions data) []
    | None => Ok []
    end ;;
  Ok (coordinator, entities).

(** After setup the platform only hears of later snapshots through the
    entities' update handler. *)
Definition on_coordinator_update
    (entities : list RenovasjonCollectionTodaySensor)
    (coordinator : Coordinator.t) : list RenovasjonCollectionTodaySensor :=
  map _handle_coordinator_update entities.

Definition run_updates (entities : list RenovasjonCollectionTodaySensor)
    (updates : list Coordinator.t) : list RenovasjonCollectionTodaySensor :=
  fold_left on_coordinator_update updates entities.

End WithConst.

End BinarySensor.

(** ** __init__.py: the [refresh] service *)

Module Service.

Section WithPoll.

(** One poll of the portal, as the host's [async_refresh] runs it: it
    stores new data or the failure in the coordinator and never raises. *)
Variable poll : Coordinator.t -> Coordinator.t.

Definition async_refresh (coordinator : Coordinator.t) : Coordinator.t :=
  let c := poll coordinator in
  Coordinator.make (Coordinator.config_entry c) (Coordinator.data c)
    (Coordinator.last_update_success c) (Coordinator.last_exception c)
    (S (Coordinator.refresh_count coordinator)).

(** [for coord in hass.data[DOMAIN].values(): await coord.async_refresh()] *)
Fixpoint refresh_all (registry : Registry) : Registry :=
  match registry with
  | [] => []
  | (entry_id, coord) :: rest =>
      (entry_id, async_refresh coord) :: refresh_all rest
  end.

(** [async_refresh_service] as it runs when no other task touches the
    registry while it awaits ([ServiceLive] has the call among the other
    tasks): [call_data] is [call.data]; the result is the registry with
    the refreshed coordinators. *)
Definition async_refresh_service (hass_data : Registry)
    (call_data : PyDict.t string) : result Registry :=
  let entry_id := PyDict.get call_data "entry_id" in
  match entry_id with
  | Some entry_id =>
      if PyStr.truthy entry_id then
        if negb (PyDict.contains hass_data entry_id) then
          Raise (ServiceValidationError
                   ("Unknown entry_id: " ++ entry_id)%string)
        else
          coordinator <- registry_lookup hass_data entry_id ;;
          Ok (PyDict.set hass_data entry_id (async_refresh coordinator))
      else Ok (refresh_all hass_data)
  | None => Ok (refresh_all hass_data)
  end.

End WithPoll.

End Service.

(** ** __init__.py: the [refresh] service among the other tasks

    The service awaits every refresh, and at an await the event loop runs
    other tasks, which may set up or unload a config entry and so change
    the registry the call is working on.  Each setup makes a coordinator
    of its own, so no coordinator is stored under two ids and a refreshed
    coordinator is written back where it was read. *)

Module ServiceLive.


Section WithTasks.

Variable poll : Coordinator.t -> Coordinator.t.

(** [other_tasks n registry]: the registry as the other tasks have left
    it when the [n]-th await of the call returns ([n] counts from 0). *)
Variable other_tasks : nat -> Registry -> Registry.

(** The coordinator at a position of the registry, replaced. *)
Fixpoint store_at (registry : Registry) (position : nat)
    (coordinator : Coordinator.t) : Registry :=
  match registry, position with
  | [], _ => []
  | (entry_id, _) :: rest, O => (entry_id, coordinator) :: rest
  | item :: rest, S before => item :: store_at rest before coordinator
  end.

(** [for coord in hass.data[DOMAIN].values(): await coord.async_refresh()]
    over the live dictionary.  The view's iterator keeps the size the
    dictionary had when the loop began, its position and the number of
    values still to come; every [next] first compares the sizes and
    raises [RuntimeError] when the dictionary has changed size.  The loop
    ends with the registry as it then is and the exception it raised, if
    any. *)
Fixpoint values_loop (size remaining position awaits : nat)
    (registry : Registry) : Registry * option exn :=
  if negb (Nat.eqb (List.length registry) size)
  then (registry, Some RuntimeError)
  else
    match remaining with
    | O => (registry, None)
    | S remaining' =>
        match nth_error registry position with
        | None => (registry, None)
        | Some (_, coord) =>
            let refreshed :=
              store_at registry position (Service.async_refresh poll coord) in
            values_loop size remaining' (S position) (S awaits)
              (other_tasks awaits refreshed)
        end
    end.

Definition refresh_values (registry : Registry) : Registry * option exn :=
  values_loop (List.length registry) (List.length registry) 0 0 registry.

(** [async_refresh_service]: [call_data] is [call.data]; the call ends
    with the registry as it then is and the exception it raised, if
    any. *)
Definition async_refresh_service (hass_data : Registry)
    (call_data : PyDict.t string) : Registry * option exn :=
  let entry_id := PyDict.get call_data "entry_id" in
  match entry_id with
  | Some entry_id =>
      if PyStr.truthy entry_id then
        if negb (PyDict.contains hass_data entry_id) then
          (hass_data,
           Some (ServiceValidationError
                   ("Unknown entry_id: " ++ entry_id)%string))
        else
          match registry_lookup hass_data entry_id with
          | Raise e => (hass_data, Some e)
          | Ok coordinator =>
              (other_tasks 0
                 (PyDict.set hass_data entry_id
                    (Service.async_refresh poll coordinator)),
               None)
          end
      else refresh_values hass_data
  | None => refresh_values hass_data
  end.

End WithTasks.


End ServiceLive.

(** ** coordinator.py: grouping the fetched disposals *)

Module Grouping.

(** Modelled from the spec: the grouping step of the coordinator's update
    (coordinator.py is not among the sources).  The spec has it group the
    list returned by [get_disposals] by [fraction], keeping the upstream
    order inside each group and not sorting. *)
Fixpoint group_by_fraction (disposals : list WasteDisposal.t)
    (groups : PyDict.t (list WasteDisposal.t))
  : PyDict.t (list WasteDisposal.t) :=
  match disposals with
  | [] => groups
  | d :: rest =>
      let k := WasteDisposal.fraction d in
      group_by_fraction rest
        (PyDict.set groups k (PyDict.get_default groups k [] ++ [d]))
  end.

(** Modelled from the spec: the snapshot a successful refresh publishes. *)
Definition publish (address_id address_name municipality : string)
    (disposals : list WasteDisposal.t) : RenovasjonData.t :=
  RenovasjonData.make address_id address_name municipality
    (group_by_fraction disposals []).

End Grouping.

(** ** config_flow.py: the selection steps *)

Module ConfigFlow.

Record AddressSearchResult : Type := make {
  id : string;
  title : string;
  municipality : string
}.

Inductive ApiFailure : Type :=
| RenovasjonConnectionError
| RenovasjonApiError.

Inductive FlowResult : Type :=
| FORM (step_id : string) (errors : PyDict.t string)
| CREATE_ENTRY (title : string) (data : PyDict.t string)
| UPDATE_ENTRY (title : string) (data : PyDict.t string).

Section WithApi.

(** The portal's answer to [get_disposals], by address id. *)
Variable get_disposals : string -> ApiFailure + list WasteDisposal.t.

Definition find_address (addresses : list AddressSearchResult)
    (address_id : string) : option AddressSearchResult :=
  find (fun a => String.eqb (id a) address_id) addresses.

Definition entry_data (a : AddressSearchResult) : PyDict.t string :=
  [("address_id", id a); ("address_name", title a);
   ("municipality", municipality a)].

Definition entry_title (a : AddressSearchResult) : string :=
  (title a ++ ", " ++ municipality a)%string.

(** Modelled from the spec: the [select] and [reconfigure_select] steps of
    config_flow.py, which is not among the sources.  [addresses] is the
    cache of the last search, [user_input] the submitted address id (none
    when the form is first shown); [finish] creates or updates the entry. *)
Definition selection_step (step_id : string)
    (finish : string -> PyDict.t string -> FlowResult)
    (addresses : list AddressSearchResult) (user_input : option string)
  : FlowResult :=
  match user_input with
  | None => FORM step_id []
  | Some address_id =>
      match find_address addresses address_id with
      | None => FORM step_id [("base", "invalid_address")]
      | Some address =>
          match get_disposals address_id with
          | inl RenovasjonConnectionError =>
              FORM step_id [("base", "cannot_connect")]
          | inl RenovasjonApiError => FORM step_id [("base", "unknown")]
          | inr _ => finish (entry_title address) (entry_data address)
          end
      end
  end.

Definition async_step_select :=
  selection_step "select" CREATE_ENTRY.

Definition async_step_reconfigure_select :=
  selection_step "reconfigure_select" UPDATE_ENTRY.

(** A result that creates or updates a config entry. *)
Definition touches_entry (r : FlowResult) : bool :=
  match r with
  | FORM _ _ => false
  | CREATE_ENTRY _ _ | UPDATE_ENTRY _ _ => true
  end.

End WithApi.

End ConfigFlow.

(** ** diagnostics.py *)

Module Diagnostics.

(** JSON-ready values, as the diagnostics hands them to the host. *)
#[local] Unset Elimination Schemes.
Inductive value : Type :=
| VNone
| VBool (b : bool)
| VInt (n : Z)
| VStr (s : string)
| VList (items : list value)
| VDict (items : list (string * value)).
#[local] Set Elimination Schemes.

Definition of_option_string (o : option string) : value :=
  match o with
  | Some s => VStr s
  | None => VNone
  end.

Definition disposal_value (d : WasteDisposal.t) : value :=
  VDict [("date", VStr (Date.isoformat (Datetime.date (WasteDisposal.date d))));
         ("fraction", VStr (WasteDisposal.fraction d));
         ("description", of_option_string (WasteDisposal.description d));
         ("symbol_id", VInt (WasteDisposal.symbol_id d))].

Definition data_value (data : RenovasjonData.t) : value :=
  VDict [("address_id", VStr (RenovasjonData.address_id data));
         ("address_name", VStr (RenovasjonData.address_name data));
         ("municipality", VStr (RenovasjonData.municipality data));
         ("fractions", VList (map VStr (RenovasjonData.fractions data)));
         ("disposals_by_fraction",
          VDict (map (fun kv => (fst kv, VList (map disposal_value (snd kv))))
                     (PyDict.items (RenovasjonData.disposals_by_fraction data))))].

Definition config_entry_value (entry : ConfigEntry.t) : value :=
  VDict [("entry_id", VStr (ConfigEntry.entry_id entry));
         ("version", VInt (ConfigEntry.version entry));
         ("domain", VStr (ConfigEntry.domain entry));
         ("title", VStr (ConfigEntry.title entry));
         ("options",
          VDict (map (fun kv => (fst kv, VInt (snd kv)))
                     (PyDict.items (ConfigEntry.options entry))))].

Definition coordinator_value (coordinator : Coordinator.t) : value :=
  VDict [("last_update_success",
          VBool (Coordinator.last_update_success coordinator));
         ("last_exception",
          match Coordinator.last_exception coordinator with
          | Some e => VStr (PyException.str e)
          | None => VNone
          end)].

(** Modelled from the spec: [async_get_config_entry_diagnostics] of
    diagnostics.py, which is not among the sources.  The spec has it
    project the entry's metadata and options, the coordinator's success
    flag and stringified last exception, and the snapshot when there is
    one. *)
Definition async_get_config_entry_diagnostics (entry : ConfigEntry.t)
    (coordinator : Coordinator.t) : PyDict.t value :=
  let diagnostics :=
    [("config_entry", config_entry_value entry);
     ("coordinator", coordinator_value coordinator)] in
  match Coordinator.data coordinator with
  | Some data => PyDict.set diagnostics "data" (data_value data)
  | None => diagnostics
  end.

End Diagnostics.

(** * Properties *)

(** ** Results *)

Lemma bind_Ok (A B : Type) (a : A) (k : A -> result B) :
  bind (Ok a) k = k a.
Proof. reflexivity. Qed.

Lemma bind_ret (A : Type) (r : result A) :
  bind r (fun a => Ok a) = r.
Proof. destruct r; reflexivity. Qed.

Lemma bind_Ok_inv (A B : Type) (r : result A) (k : A -> result B) (b : B) :
  bind r k = Ok b -> exists a, r = Ok a /\ k a = Ok b.
Proof.
  destruct r as [a | e]; simpl; intros H.
  - exists a. split; [reflexivity | exact H].
  - discriminate H.
Qed.

(** ** Dates *)

Module DateFacts.

Lemma ltb_spec (a b : Date.t) :
  Date.ltb a b = true <->
  Date.year a < Date.year b \/
  (Date.year a = Date.year b /\
   (Date.month a < Date.month b \/
    (Date.month a = Date.month b /\ Date.day a < Date.day b))).
Proof.
  unfold Date.ltb.
  rewrite !orb_true_iff, !andb_true_iff, !orb_true_iff, !andb_true_iff.
  rewrite !Z.ltb_lt, !Z.eqb_eq. tauto.
Qed.

Lemma eqb_eq (a b : Date.t) : Date.eqb a b = true <-> a = b.
Proof.
  destruct a as [ya ma da], b as [yb mb db]. unfold Date.eqb. simpl.
  rewrite !andb_true_iff, !Z.eqb_eq. split.
  - intros [[Hy Hm] Hd]. subst. reflexivity.
  - intros H. inversion H. auto.
Qed.

Lemma eqb_refl (a : Date.t) : Date.eqb a a = true.
Proof. apply eqb_eq. reflexivity. Qed.

Lemma leb_spec (a b : Date.t) :
  Date.leb a b = true <->
  Date.year a < Date.year b \/
  (Date.year a = Date.year b /\
   (Date.month a < Date.month b \/
    (Date.month a = Date.month b /\ Date.day a <= Date.day b))).
Proof.
  unfold Date.leb. rewrite orb_true_iff, ltb_spec.
  unfold Date.eqb. rewrite !andb_true_iff, !Z.eqb_eq. lia.
Qed.

Lemma leb_refl (a : Date.t) : Date.leb a a = true.
Proof. apply leb_spec. lia. Qed.

Lemma leb_trans (a b c : Date.t) :
  Date.leb a b = true -> Date.leb b c = true -> Date.leb a c = true.
Proof. rewrite !leb_spec. lia. Qed.

Lemma leb_false_flip (a b : Date.t) :
  Date.leb a b = false -> Date.leb b a = true.
Proof.
  intros H. apply not_true_iff_false in H. rewrite leb_spec in *. lia.
Qed.

Lemma leb_antisym (a b : Date.t) :
  Date.leb a b = true -> Date.leb b a = true -> a = b.
Proof.
  rewrite !leb_spec. intros H1 H2.
  destruct a as [ya ma da], b as [yb mb db]. simpl in *.
  assert (ya = yb) by lia. assert (ma = mb) by lia. assert (da = db) by lia.
  subst. reflexivity.
Qed.

Lemma ltb_leb_false (a b : Date.t) :
  Date.ltb a b = true -> Date.leb b a = false.
Proof.
  intros H. apply not_true_iff_false. rewrite ltb_spec in H.
  rewrite leb_spec. lia.
Qed.

(** Every date before [date.max] has a following day. *)
Lemma next_day_before_max (d : Date.t) :
  Date.lt d Date.max -> exists d', Date.next_day d = Ok d'.
Proof.
  unfold Date.lt. intros H. unfold Date.next_day.
  rewrite (ltb_leb_false _ _ H).
  destruct (Date.day d <? Date.days_in_month (Date.year d) (Date.month d));
    [eexists; reflexivity |].
  destruct (Date.month d <? 12); eexists; reflexivity.
Qed.

(** From [date.max] on, stepping to the following day raises. *)
Lemma next_day_overflow (d : Date.t) :
  Date.le Date.max d -> Date.next_day d = Raise OverflowError.
Proof. unfold Date.le, Date.next_day. intros ->. reflexivity. Qed.

Lemma add_days_1 (d : Date.t) : Date.add_days d 1 = Date.next_day d.
Proof. simpl. apply bind_ret. Qed.

Lemma next_day_raises (d : Date.t) (e : exn) :
  Date.next_day d = Raise e -> e = OverflowError.
Proof.
  unfold Date.next_day. destruct (Date.leb Date.max d); [congruence |].
  destruct (Date.day d <? Date.days_in_month (Date.year d) (Date.month d));
    [discriminate |].
  destruct (Date.month d <? 12); discriminate.
Qed.

Lemma leb_max_or_lt (d : Date.t) :
  Date.leb Date.max d = false -> Date.lt d Date.max.
Proof.
  intros H. apply not_true_iff_false in H. unfold Date.lt.
  rewrite leb_spec in H. rewrite ltb_spec. lia.
Qed.

Lemma days_in_month_bounds (y m : Z) : 28 <= Date.days_in_month y m <= 31.
Proof.
  unfold Date.days_in_month.
  destruct (m =? 2); [destruct (Date.is_leap y); lia |].
  destruct ((m =? 4) || (m =? 6) || (m =? 9) || (m =? 11))%bool; lia.
Qed.

(** The following day of a date is a date, and a later one. *)
Lemma next_day_valid (d d' : Date.t) :
  Date.valid d -> Date.next_day d = Ok d' -> Date.valid d' /\ Date.lt d d'.
Proof.
  unfold Date.valid, Date.lt, Date.next_day, Date.MINYEAR, Date.MAXYEAR.
  intros [Hy [Hm Hd]].
  destruct (Date.leb Date.max d) eqn:Hmax; [discriminate |].
  apply not_true_iff_false in Hmax. rewrite leb_spec in Hmax.
  unfold Date.max, Date.MAXYEAR in Hmax. simpl in Hmax.
  pose proof (days_in_month_bounds (Date.year d) (Date.month d)) as Hdim.
  destruct (Date.day d <? Date.days_in_month (Date.year d) (Date.month d))
    eqn:Hday.
  - intros H. injection H as <-. rewrite ltb_spec. simpl.
    apply Z.ltb_lt in Hday. lia.
  - apply Z.ltb_ge in Hday.
    destruct (Date.month d <? 12) eqn:Hmonth; intros H; injection H as <-;
      rewrite ltb_spec; simpl.
    + apply Z.ltb_lt in Hmonth.
      pose proof (days_in_month_bounds (Date.year d) (Date.month d + 1)).
      lia.
    + apply Z.ltb_ge in Hmonth.
      assert (Date.month d = 12) by lia.
      assert (Hdec : Date.days_in_month (Date.year d) 12 = 31) by reflexivity.
      assert (Hjan : Date.days_in_month (Date.year d + 1) 1 = 31)
        by reflexivity.
      rewrite Hjan. replace (Date.month d) with 12 in *. lia.
Qed.

(** The following day is a later day. *)
Lemma next_day_lt (d d' : Date.t) : Date.next_day d = Ok d' -> Date.lt d d'.
Proof.
  unfold Date.next_day, Date.lt.
  destruct (Date.leb Date.max d); [discriminate |].
  destruct (Date.day d <? Date.days_in_month (Date.year d) (Date.month d)).
  - intros H. injection H as <-. apply ltb_spec. simpl. lia.
  - destruct (Date.month d <? 12); intros H; injection H as <-;
      apply ltb_spec; simpl; lia.
Qed.

Lemma ltb_leb (a b : Date.t) : Date.ltb a b = true -> Date.leb a b = true.
Proof. rewrite ltb_spec, leb_spec. lia. Qed.

Lemma leb_ltb_trans (a b c : Date.t) :
  Date.leb a b = true -> Date.ltb b c = true -> Date.ltb a c = true.
Proof. rewrite leb_spec, !ltb_spec. lia. Qed.

(** Adding days never goes back. *)
Lemma add_days_le (n : nat) (d d' : Date.t) :
  Date.add_days d n = Ok d' -> Date.le d d'.
Proof.
  revert d. induction n as [| n IH]; intros d; cbn [Date.add_days].
  - intros H. injection H as <-. apply leb_refl.
  - intros H. apply bind_Ok_inv in H. destruct H as [next [Hnext Hrest]].
    unfold Date.le. eapply leb_trans; [| apply IH, Hrest].
    apply ltb_leb, next_day_lt, Hnext.
Qed.

(** One day more at the end is one day more at the start. *)
Lemma add_days_S (n : nat) (d : Date.t) :
  Date.add_days d (S n)
  = bind (Date.next_day d) (fun d' => Date.add_days d' n).
Proof. reflexivity. Qed.

Lemma add_days_succ_r (n : nat) (d : Date.t) :
  Date.add_days d (S n) = bind (Date.add_days d n) Date.next_day.
Proof.
  revert d. induction n as [| n IH]; intros d.
  - cbn [Date.add_days bind]. apply bind_ret.
  - rewrite (add_days_S (S n)), (add_days_S n).
    destruct (Date.next_day d) as [next |]; cbn [bind]; [apply IH |].
    reflexivity.
Qed.

(** The calendar arithmetic on some days of the Gregorian calendar. *)
Example next_day_leap_year :
  Date.next_day (Date.make 2024 2 28) = Ok (Date.make 2024 2 29) /\
  Date.next_day (Date.make 2023 2 28) = Ok (Date.make 2023 3 1) /\
  Date.next_day (Date.make 2100 2 28) = Ok (Date.make 2100 3 1) /\
  Date.next_day (Date.make 2026 12 31) = Ok (Date.make 2027 1 1) /\
  Date.next_day Date.max = Raise OverflowError.
Proof. repeat split. Qed.

Example add_days_year :
  Date.add_days (Date.make 2026 11 4) 365 = Ok (Date.make 2027 11 4) /\
  Date.add_days (Date.make 2027 11 4) 365 = Ok (Date.make 2028 11 3) /\
  Date.add_days (Date.make 9998 12 31) 365 = Ok Date.max /\
  Date.add_days (Date.make 9999 1 1) 365 = Raise OverflowError.
Proof. repeat split; vm_compute; reflexivity. Qed.

Example isoformat_padding :
  Date.isoformat (Date.make 2026 11 4) = "2026-11-04" /\
  Date.isoformat (Date.make 987 1 31) = "0987-01-31".
Proof. split; reflexivity. Qed.

End DateFacts.

(** ** The calendar *)

Module CalendarFacts.

Import Calendar.

(** The calendar date of a disposal: [disposal.date.date()]. *)
Definition event_date (d : WasteDisposal.t) : Date.t :=
  Datetime.date (WasteDisposal.date d).

(** [start <= event_date <= end] *)
Definition in_range (start end_ : Date.t) (d : WasteDisposal.t) : bool :=
  (Date.leb start (event_date d) && Date.leb (event_date d) end_)%bool.

(** The stored disposals of a snapshot that a range selects. *)
Definition selected (data : RenovasjonData.t) (start end_ : Date.t)
  : list (string * WasteDisposal.t) :=
  filter (fun kd => in_range start end_ (snd kd)) (RenovasjonData.stored data).

(** Ascending by start date. *)
Definition by_start (a b : CalendarEvent.t) : Prop :=
  Date.le (CalendarEvent.start a) (CalendarEvent.start b).

(** Every selected disposal has a following day. *)
Definition ends_representable (data : RenovasjonData.t) (start end_ : Date.t)
  : Prop :=
  Forall (fun kd => Date.lt (event_date (snd kd)) Date.max)
         (selected data start end_).

Definition day_after (d : Date.t) : Date.t :=
  match Date.next_day d with
  | Ok d' => d'
  | Raise _ => d
  end.

Definition render_event (self : RenovasjonCalendar)
    (fraction translation_key : string) (d : WasteDisposal.t)
  : CalendarEvent.t :=
  CalendarEvent.make (event_date d) (day_after (event_date d)) fraction
    (WasteDisposal.description d)
    (event_uid self translation_key (event_date d)).

Lemma insert_by_start_perm (e : CalendarEvent.t) (l : list CalendarEvent.t) :
  Permutation (insert_by_start e l) (e :: l).
Proof.
  induction l as [| e' rest IH]; simpl.
  - apply Permutation_refl.
  - destruct (Date.leb (CalendarEvent.start e) (CalendarEvent.start e')).
    + apply Permutation_refl.
    + eapply perm_trans; [apply perm_skip, IH | apply perm_swap].
Qed.

Lemma sort_by_start_perm (l : list CalendarEvent.t) :
  Permutation (sort_by_start l) l.
Proof.
  induction l as [| e rest IH]; simpl.
  - apply perm_nil.
  - eapply perm_trans; [apply insert_by_start_perm | apply perm_skip, IH].
Qed.

Lemma insert_by_start_sorted (e : CalendarEvent.t) (l : list CalendarEvent.t) :
  StronglySorted by_start l -> StronglySorted by_start (insert_by_start e l).
Proof.
  induction 1 as [| e' rest Hsorted IH Hall]; simpl.
  - constructor; constructor.
  - destruct (Date.leb (CalendarEvent.start e) (CalendarEvent.start e')) eqn:Hle.
    + constructor.
      * constructor; assumption.
      * constructor; [exact Hle |].
        eapply Forall_impl; [| exact Hall].
        intros x Hx. unfold by_start, Date.le in *.
        eapply DateFacts.leb_trans; eassumption.
    + constructor; [exact IH |].
      eapply Permutation_Forall.
      * apply Permutation_sym, insert_by_start_perm.
      * constructor; [| exact Hall].
        apply DateFacts.leb_false_flip. exact Hle.
Qed.

Lemma sort_by_start_sorted (l : list CalendarEvent.t) :
  StronglySorted by_start (sort_by_start l).
Proof.
  induction l as [| e rest IH]; simpl.
  - constructor.
  - apply insert_by_start_sorted, IH.
Qed.

Lemma filter_map_pair (A B : Type) (f : B -> bool) (k : A) (l : list B) :
  filter (fun kd => f (snd kd)) (map (pair k) l) = map (pair k) (filter f l).
Proof.
  induction l as [| x rest IH]; simpl; [reflexivity |].
  destruct (f x); simpl; rewrite IH; reflexivity.
Qed.

Lemma events_of_disposals_ok (self : RenovasjonCalendar)
    (fraction translation_key : string) (start end_ : Date.t)
    (disposals : list WasteDisposal.t) (events : list CalendarEvent.t) :
  (forall d, In d disposals -> in_range start end_ d = true ->
             Date.lt (event_date d) Date.max) ->
  events_of_disposals self fraction translation_key start end_ disposals events
  = Ok (events ++ map (render_event self fraction translation_key)
                      (filter (in_range start end_) disposals)).
Proof.
  revert events.
  induction disposals as [| d rest IH]; intros events Hmax;
    cbn [events_of_disposals filter map].
  - rewrite app_nil_r. reflexivity.
  - fold (event_date d). fold (in_range start end_ d).
    destruct (in_range start end_ d) eqn:Hin.
    + destruct (DateFacts.next_day_before_max (Hmax d (or_introl eq_refl) Hin))
        as [d' Hd'].
      rewrite DateFacts.add_days_1, Hd', bind_Ok.
      rewrite IH by (intros; apply Hmax; [right |]; assumption).
      cbn [map]. rewrite <- app_assoc. cbn [app].
      unfold render_event at 2, day_after. rewrite Hd'. reflexivity.
    + apply IH. intros; apply Hmax; [right |]; assumption.
Qed.

(** A selected disposal on [date.max] makes the loop raise, whatever was
    collected before it. *)
Lemma events_of_disposals_overflow (self : RenovasjonCalendar)
    (fraction translation_key : string) (start end_ : Date.t)
    (d : WasteDisposal.t) (rest : list WasteDisposal.t)
    (events : list CalendarEvent.t) :
  in_range start end_ d = true -> Date.le Date.max (event_date d) ->
  events_of_disposals self fraction translation_key start end_ (d :: rest)
    events = Raise OverflowError.
Proof.
  intros Hin Hmax. cbn [events_of_disposals].
  fold (event_date d). fold (in_range start end_ d).
  rewrite Hin, DateFacts.add_days_1, (DateFacts.next_day_overflow Hmax).
  reflexivity.
Qed.

Lemma events_of_disposals_raises (self : RenovasjonCalendar)
    (fraction translation_key : string) (start end_ : Date.t)
    (disposals : list WasteDisposal.t) (events : list CalendarEvent.t)
    (e : exn) :
  events_of_disposals self fraction translation_key start end_ disposals events
  = Raise e -> e = OverflowError.
Proof.
  revert events.
  induction disposals as [| d rest IH]; intros events;
    cbn [events_of_disposals]; [discriminate |].
  destruct (Date.leb start (Datetime.date (WasteDisposal.date d))
            && Date.leb (Datetime.date (WasteDisposal.date d)) end_)%bool;
    [| apply IH].
  rewrite DateFacts.add_days_1.
  destruct (Date.next_day (Datetime.date (WasteDisposal.date d)))
    as [d' | e'] eqn:Hnext; cbn [bind].
  - apply IH.
  - intros H. injection H as <-. eapply DateFacts.next_day_raises, Hnext.
Qed.

(** The loop raises as soon as one selected disposal has no following
    day. *)
Lemma events_of_disposals_some_overflow (self : RenovasjonCalendar)
    (fraction translation_key : string) (start end_ : Date.t)
    (disposals : list WasteDisposal.t) (events : list CalendarEvent.t) :
  Exists (fun d => Date.le Date.max (event_date d))
         (filter (in_range start end_) disposals) ->
  events_of_disposals self fraction translation_key start end_ disposals events
  = Raise OverflowError.
Proof.
  revert events.
  induction disposals as [| d rest IH]; intros events Hex; cbn [filter] in Hex.
  - inversion Hex.
  - destruct (in_range start end_ d) eqn:Hin.
    + destruct (Date.leb Date.max (event_date d)) eqn:Hmax.
      * apply events_of_disposals_overflow; assumption.
      * inversion Hex as [? ? Hhere | ? ? Hlater]; subst;
          [unfold Date.le in Hhere; congruence |].
        cbn [events_of_disposals]. fold (event_date d).
        fold (in_range start end_ d). rewrite Hin.
        destruct (DateFacts.next_day_before_max
                    (DateFacts.leb_max_or_lt _ Hmax)) as [d' Hd'].
        rewrite DateFacts.add_days_1, Hd', bind_Ok. apply IH, Hlater.
    + cbn [events_of_disposals]. fold (event_date d).
      fold (in_range start end_ d). rewrite Hin. apply IH, Hex.
Qed.

Lemma Forall2_and_left (A B : Type) (P : A -> Prop) (R : A -> B -> Prop)
    (l : list A) (l' : list B) :
  Forall P l -> Forall2 R l l' -> Forall2 (fun x y => P x /\ R x y) l l'.
Proof.
  intros HP HR. induction HR as [| x y l l' Hxy HR IH].
  - constructor.
  - inversion HP; subst. constructor; [split; assumption | apply IH; assumption].
Qed.

Lemma stored_grouped (data : RenovasjonData.t) :
  RenovasjonData.grouped data ->
  Forall (fun kd => WasteDisposal.fraction (snd kd) = fst kd)
         (RenovasjonData.stored data).
Proof.
  intros Hg. apply Forall_forall. intros [k d] Hin.
  unfold RenovasjonData.stored in Hin. apply in_flat_map in Hin.
  destruct Hin as [[k' ds] [Hitem Hin]]. simpl in Hin.
  apply in_map_iff in Hin. destruct Hin as [d' [Heq Hd']].
  inversion Heq; subst. simpl. eapply Hg; eassumption.
Qed.

Section WithConst.

Variable WASTE_FRACTIONS : PyDict.t (PyDict.t string).
Variable str_lower : string -> string.

Definition render (self : RenovasjonCalendar) (kd : string * WasteDisposal.t)
  : CalendarEvent.t :=
  render_event self (fst kd) (translation_key_of WASTE_FRACTIONS str_lower
      (fst kd))
    (snd kd).

(** An event shows a stored disposal: an all-day event on the disposal's
    date, titled with the fraction it is stored under, carrying its
    description. *)
Definition shows (self : RenovasjonCalendar) (kd : string * WasteDisposal.t)
    (e : CalendarEvent.t) : Prop :=
  CalendarEvent.start e = event_date (snd kd) /\
  Date.add_days (CalendarEvent.start e) 1 = Ok (CalendarEvent.end_ e) /\
  CalendarEvent.summary e = fst kd /\
  CalendarEvent.description e = WasteDisposal.description (snd kd) /\
  CalendarEvent.uid e
  = event_uid self (translation_key_of WASTE_FRACTIONS str_lower (fst kd))
      (event_date (snd kd)).

Lemma events_of_fractions_ok (self : RenovasjonCalendar) (start end_ : Date.t)
    (items : list (string * list WasteDisposal.t))
    (events : list CalendarEvent.t) :
  Forall (fun kd => Date.lt (event_date (snd kd)) Date.max)
         (filter (fun kd => in_range start end_ (snd kd))
                 (flat_map (fun kv => map (pair (fst kv)) (snd kv)) items)) ->
  events_of_fractions WASTE_FRACTIONS str_lower self start end_ items events
  = Ok (events ++
        map (render self)
            (filter (fun kd => in_range start end_ (snd kd))
                    (flat_map (fun kv => map (pair (fst kv)) (snd kv)) items))).
Proof.
  revert events.
  induction items as [| [fraction disposals] rest IH]; intros events Hmax;
    cbn [events_of_fractions flat_map fst snd] in *.
  - simpl. rewrite app_nil_r. reflexivity.
  - rewrite filter_app, filter_map_pair in Hmax |- *.
    apply Forall_app in Hmax. destruct Hmax as [Hhere Hrest].
    rewrite events_of_disposals_ok.
    + rewrite bind_Ok, IH by exact Hrest.
      rewrite map_app, map_map, app_assoc. reflexivity.
    + intros d Hd Hin. rewrite Forall_forall in Hhere.
      apply (Hhere (fraction, d)). apply in_map, filter_In. split; assumption.
Qed.

Lemma render_shows (self : RenovasjonCalendar)
    (l : list (string * WasteDisposal.t)) :
  Forall (fun kd => Date.lt (event_date (snd kd)) Date.max) l ->
  Forall2 (shows self) l (map (render self) l).
Proof.
  induction 1 as [| kd l Hkd Hl IH]; simpl; constructor; [| exact IH].
  destruct (DateFacts.next_day_before_max Hkd) as [d' Hd'].
  unfold shows, render, render_event, day_after. simpl.
  rewrite Hd'. repeat split.
Qed.

Lemma _get_events_for_range_eq (self : RenovasjonCalendar)
    (coordinator : Coordinator.t) (data : RenovasjonData.t)
    (start end_ : Date.t) :
  Coordinator.data coordinator = Some data ->
  ends_representable data start end_ ->
  _get_events_for_range WASTE_FRACTIONS str_lower self coordinator start end_
  = Ok (sort_by_start (map (render self) (selected data start end_))).
Proof.
  intros Hdata Hmax. unfold _get_events_for_range. rewrite Hdata.
  unfold PyDict.items. rewrite events_of_fractions_ok by exact Hmax.
  reflexivity.
Qed.

Lemma events_of_fractions_some_overflow (self : RenovasjonCalendar)
    (start end_ : Date.t) (items : list (string * list WasteDisposal.t))
    (events : list CalendarEvent.t) :
  Exists (fun kd => Date.le Date.max (event_date (snd kd)))
         (filter (fun kd => in_range start end_ (snd kd))
                 (flat_map (fun kv => map (pair (fst kv)) (snd kv)) items)) ->
  events_of_fractions WASTE_FRACTIONS str_lower self start end_ items events
  = Raise OverflowError.
Proof.
  revert events.
  induction items as [| [fraction disposals] rest IH]; intros events Hex;
    cbn [flat_map fst snd] in Hex.
  - inversion Hex.
  - rewrite filter_app, filter_map_pair in Hex. apply Exists_app in Hex.
    cbn [events_of_fractions]. destruct Hex as [Hhere | Hlater].
    + rewrite events_of_disposals_some_overflow; [reflexivity |].
      apply Exists_exists in Hhere. destruct Hhere as [kd [Hin Hmax]].
      apply in_map_iff in Hin. destruct Hin as [d [<- Hd]].
      apply Exists_exists. exists d. split; assumption.
    + destruct (events_of_disposals self fraction
                  (translation_key_of WASTE_FRACTIONS str_lower
                      fraction) start end_
                  disposals events) as [events' | e] eqn:Hrun; cbn [bind].
      * apply IH, Hlater.
      * f_equal. eapply events_of_disposals_raises, Hrun.
Qed.

(** The range query raises exactly when a selected disposal has no
    following day: the condition of [_get_events_for_range_eq] cannot be
    weakened. *)
Lemma range_query_overflow (self : RenovasjonCalendar)
    (coordinator : Coordinator.t) (data : RenovasjonData.t)
    (start end_ : Date.t) :
  Coordinator.data coordinator = Some data ->
  Exists (fun kd => Date.le Date.max (event_date (snd kd)))
         (selected data start end_) ->
  _get_events_for_range WASTE_FRACTIONS str_lower self coordinator start end_
  = Raise OverflowError.
Proof.
  intros Hdata Hex. unfold _get_events_for_range. rewrite Hdata.
  unfold PyDict.items.
  rewrite events_of_fractions_some_overflow by exact Hex. reflexivity.
Qed.

Lemma async_get_events_range (self : RenovasjonCalendar)
    (coordinator : Coordinator.t) (start_date end_date : Datetime.t) :
  async_get_events WASTE_FRACTIONS str_lower
      self coordinator start_date end_date
  = _get_events_for_range WASTE_FRACTIONS str_lower self coordinator
      (Datetime.date start_date) (Datetime.date end_date).
Proof. reflexivity. Qed.

Lemma range_query_no_data (self : RenovasjonCalendar)
    (coordinator : Coordinator.t) (start end_ : Date.t) :
  Coordinator.data coordinator = None ->
  _get_events_for_range WASTE_FRACTIONS str_lower
      self coordinator start end_ = Ok [].
Proof. intros H. unfold _get_events_for_range. rewrite H. reflexivity. Qed.

(** The range query returns, sorted, one event for each selected disposal. *)
Lemma range_query_shown (self : RenovasjonCalendar)
    (coordinator : Coordinator.t) (data : RenovasjonData.t)
    (start end_ : Date.t) :
  Coordinator.data coordinator = Some data ->
  ends_representable data start end_ ->
  exists events shown,
    _get_events_for_range WASTE_FRACTIONS str_lower self coordinator start end_
      = Ok events /\
    Permutation shown (selected data start end_) /\
    Forall2 (shows self) shown events /\
    StronglySorted by_start events.
Proof.
  intros Hdata Hmax.
  pose proof (render_shows self Hmax) as Hshows.
  apply Forall2_flip in Hshows.
  destruct (Permutation_Forall2
              (Permutation_sym
                 (sort_by_start_perm (map (render self)
                                          (selected data start end_))))
              Hshows) as [shown [Hperm Hshown]].
  apply Forall2_flip in Hshown.
  exists (sort_by_start (map (render self) (selected data start end_))), shown.
  split; [apply _get_events_for_range_eq; assumption |].
  split; [apply Permutation_sym; exact Hperm |].
  split; [exact Hshown | apply sort_by_start_sorted].
Qed.

(** C1 (as amended).  For every snapshot, and every range in which no
    selected disposal falls on the last representable date, the range query
    returns a list of events that is sorted ascending by start date and
    shows, one event each, exactly the stored disposals whose calendar date
    lies in the inclusive range: each event is all-day (its end is its
    start plus one day), its summary is the fraction the disposal is
    stored under (the disposal's own fraction in a grouped snapshot), and
    its description is the disposal's. *)
Theorem range_query_events (self : RenovasjonCalendar)
    (coordinator : Coordinator.t) (data : RenovasjonData.t)
    (start end_ : Date.t) :
  Coordinator.data coordinator = Some data ->
  ends_representable data start end_ ->
  exists events shown,
    _get_events_for_range WASTE_FRACTIONS str_lower self coordinator start end_
      = Ok events /\
    Permutation shown (selected data start end_) /\
    Forall2 (fun kd e =>
               CalendarEvent.start e = event_date (snd kd) /\
               Date.add_days (CalendarEvent.start e) 1
                 = Ok (CalendarEvent.end_ e) /\
               CalendarEvent.summary e = fst kd /\
               CalendarEvent.description e
                 = WasteDisposal.description (snd kd))
            shown events /\
    StronglySorted by_start events /\
    (RenovasjonData.grouped data ->
     Forall2 (fun kd e => CalendarEvent.summary e
                          = WasteDisposal.fraction (snd kd)) shown events).
Proof.
  intros Hdata Hmax.
  destruct (@range_query_shown self coordinator data start end_ Hdata Hmax)
    as [events [shown [Hrun [Hperm [Hshown Hsorted]]]]].
  exists events, shown.
  split; [exact Hrun |]. split; [exact Hperm |].
  split.
  { eapply Forall2_impl; [| exact Hshown].
    intros kd e [Hstart [Hend [Hsummary [Hdescription _]]]]. auto. }
  split; [exact Hsorted |].
  intros Hgrouped.
  assert (Hown : Forall (fun kd => WasteDisposal.fraction (snd kd) = fst kd)
                        shown).
  { eapply Permutation_Forall; [apply Permutation_sym; exact Hperm |].
    apply Forall_forall. intros kd Hin. apply filter_In in Hin.
    pose proof (stored_grouped Hgrouped) as Hall.
    rewrite Forall_forall in Hall. apply Hall, Hin. }
  eapply Forall2_impl; [| exact (Forall2_and_left Hown Hshown)].
  intros kd e [Hfraction [_ [_ [Hsummary _]]]]. congruence.
Qed.

Lemma Forall2_In_left (A B : Type) (R : A -> B -> Prop)
    (l : list A) (l' : list B) (x : A) :
  Forall2 R l l' -> In x l -> exists y, In y l' /\ R x y.
Proof.
  induction 1 as [| a b l l' Hab Hrest IH]; intros Hin.
  - destruct Hin.
  - destruct Hin as [-> | Hin].
    + exists b. split; [left; reflexivity | exact Hab].
    + destruct (IH Hin) as [y [Hy Hxy]]. exists y. split; [right |]; assumption.
Qed.

(** The property, by the window the code builds: from the first reading
    of the clock through the second reading plus 365 days. *)
Lemma event_earliest_in_window (self : RenovasjonCalendar)
    (coordinator : Coordinator.t) (data : RenovasjonData.t)
    (today later window_end : Date.t) :
  Coordinator.data coordinator = Some data ->
  Date.add_days later 365 = Ok window_end ->
  ends_representable data today window_end ->
  (selected data today window_end = [] /\
   event WASTE_FRACTIONS str_lower self coordinator today later = Ok None) \/
  (exists first kd,
     event WASTE_FRACTIONS str_lower self coordinator today later
     = Ok (Some first) /\
     In kd (selected data today window_end) /\
     shows self kd first /\
     forall kd', In kd' (selected data today window_end) ->
                 Date.le (CalendarEvent.start first) (event_date (snd kd'))).
Proof.
  intros Hdata Hwindow Hmax.
  destruct (@range_query_shown self coordinator data today window_end
              Hdata Hmax)
    as [events [shown [Hrun [Hperm [Hshown Hsorted]]]]].
  unfold event. rewrite Hdata, Hwindow, bind_Ok, Hrun, bind_Ok.
  destruct events as [| first rest].
  - left. inversion Hshown; subst.
    split; [| reflexivity].
    apply Permutation_nil. exact Hperm.
  - right. inversion Hshown as [| kd e shown' rest' Hfirst Hrest]; subst.
    exists first, kd. split; [reflexivity |].
    split; [eapply Permutation_in; [exact Hperm | left; reflexivity] |].
    split; [exact Hfirst |].
    intros kd' Hin.
    apply (Permutation_in _ (Permutation_sym Hperm)) in Hin.
    destruct (@Forall2_In_left _ _ _ _ _ _ Hshown Hin) as [e [He Hshows]].
    destruct Hshows as [Hstart _]. rewrite <- Hstart.
    destruct He as [<- | He].
    + apply DateFacts.leb_refl.
    + inversion Hsorted as [| ? ? _ Hall]; subst.
      rewrite Forall_forall in Hall. apply (Hall e He).
Qed.

Lemma selected_In (data : RenovasjonData.t) (start end_ : Date.t)
    (kd : string * WasteDisposal.t) :
  In kd (selected data start end_) <->
  In kd (RenovasjonData.stored data) /\
  Date.le start (event_date (snd kd)) /\ Date.le (event_date (snd kd)) end_.
Proof.
  unfold selected, in_range, Date.le. rewrite filter_In, andb_true_iff.
  reflexivity.
Qed.

(** A window whose end lies before the last date selects no disposal
    without a following day. *)
Lemma ends_representable_before_max (data : RenovasjonData.t)
    (start end_ : Date.t) :
  Date.lt end_ Date.max -> ends_representable data start end_.
Proof.
  intros Hend. apply Forall_forall. intros kd Hin.
  apply selected_In in Hin. destruct Hin as [_ [_ Hle]].
  eapply DateFacts.leb_ltb_trans; eassumption.
Qed.

(** C3.  With no snapshot the [event] property is [None].  With a
    snapshot, the property reads the clock twice; when the two readings
    are the same day or consecutive days and lie more than 365 days
    before the last date of the calendar, there is a reading [now] of the
    clock such that the property is [None] exactly when no stored
    disposal lies in the window from [now] through [now] plus 365 days
    inclusive, and otherwise is an event that shows a disposal of that
    window and starts no later than any disposal of that window. *)
Theorem next_event (self : RenovasjonCalendar) (coordinator : Coordinator.t)
    (today later : Date.t) :
  (Coordinator.data coordinator = None ->
   event WASTE_FRACTIONS str_lower self coordinator today later = Ok None) /\
  (forall data window_end,
     Coordinator.data coordinator = Some data ->
     later = today \/ Date.next_day today = Ok later ->
     Date.add_days later 365 = Ok window_end ->
     Date.lt window_end Date.max ->
     exists now now_end,
       (now = today \/ now = later) /\
       Date.add_days now 365 = Ok now_end /\
       ((selected data now now_end = [] /\
         event WASTE_FRACTIONS str_lower self coordinator today later
         = Ok None) \/
        (exists first kd,
           event WASTE_FRACTIONS str_lower self coordinator today later
           = Ok (Some first) /\
           In kd (selected data now now_end) /\
           shows self kd first /\
           forall kd', In kd' (selected data now now_end) ->
                       Date.le (CalendarEvent.start first)
                               (event_date (snd kd'))))).
Proof.
  split.
  - intros Hnone. unfold event. rewrite Hnone. reflexivity.
  - intros data window_end Hdata Hreads Hwindow Hend.
    pose proof (@event_earliest_in_window self coordinator data today later
                  window_end Hdata Hwindow
                  (ends_representable_before_max data today Hend))
      as Hcode.
    destruct Hreads as [-> | Hnext].
    + exists today, window_end.
      split; [left; reflexivity |]. split; [exact Hwindow | exact Hcode].
    + assert (Hlong : Date.add_days today 366 = Ok window_end).
      { rewrite (DateFacts.add_days_S 365), Hnext, bind_Ok.
        exact Hwindow. }
      rewrite DateFacts.add_days_succ_r in Hlong.
      apply bind_Ok_inv in Hlong.
      destruct Hlong as [today_end [Htoday_end Hstep]].
      assert (Hends : Date.le today_end window_end)
        by (apply DateFacts.ltb_leb, DateFacts.next_day_lt, Hstep).
      assert (Hlater : Date.le later today_end).
      { apply (@DateFacts.add_days_le 364).
        rewrite (DateFacts.add_days_S 364), Hnext, bind_Ok in Htoday_end.
        exact Htoday_end. }
      assert (Hstart : Date.le today later)
        by (apply DateFacts.ltb_leb, DateFacts.next_day_lt, Hnext).
      destruct (selected data today today_end) as [| kd0 others] eqn:Hnear.
      * (* nothing within 365 days of the first reading: the window of
           the second reading selects what the code's window selects *)
        exists later, window_end.
        split; [right; reflexivity |]. split; [exact Hwindow |].
        assert (Hsame : selected data later window_end
                        = selected data today window_end).
        { unfold selected. apply filter_ext_in. intros kd Hstored.
          destruct (in_range today window_end (snd kd)) eqn:Hin.
          - unfold in_range in Hin |- *. apply andb_true_iff in Hin.
            destruct Hin as [Hfrom Hto]. rewrite Hto, andb_true_r.
            destruct (Date.leb later (event_date (snd kd))) eqn:Hlate;
              [reflexivity |].
            exfalso.
            assert (Hin : In kd (selected data today today_end)).
            { apply selected_In. split; [exact Hstored |].
              split; [exact Hfrom |].
              eapply DateFacts.leb_trans; [| exact Hlater].
              apply DateFacts.leb_false_flip. exact Hlate. }
            rewrite Hnear in Hin. destruct Hin.
          - unfold in_range in Hin |- *. apply andb_false_iff in Hin.
            apply andb_false_iff. destruct Hin as [Hfrom | Hto];
              [left | right; exact Hto].
            apply not_true_iff_false. intros Hlate.
            rewrite (DateFacts.leb_trans _ _ _ Hstart Hlate) in Hfrom.
            discriminate Hfrom. }
        rewrite Hsame. exact Hcode.
      * (* something within 365 days of the first reading: the earliest
           of the code's window is the earliest of those *)
        exists today, today_end.
        split; [left; reflexivity |]. split; [exact Htoday_end |].
        assert (Hwider : forall kd, In kd (selected data today today_end) ->
                                    In kd (selected data today window_end)).
        { intros kd Hin. apply selected_In in Hin. apply selected_In.
          destruct Hin as [Hstored [Hfrom Hto]].
          split; [exact Hstored |]. split; [exact Hfrom |].
          eapply DateFacts.leb_trans; eassumption. }
        assert (Hkd0 : In kd0 (selected data today today_end))
          by (rewrite Hnear; left; reflexivity).
        destruct Hcode as [[Hnone _] | [first [kd [Hrun [Hin [Hshows Hmin]]]]]].
        { apply Hwider in Hkd0. rewrite Hnone in Hkd0. destruct Hkd0. }
        right. exists first, kd. split; [exact Hrun |].
        split; [| split; [exact Hshows |]].
        -- apply selected_In in Hin. destruct Hin as [Hstored [Hfrom _]].
           apply selected_In. split; [exact Hstored |].
           split; [exact Hfrom |].
           destruct Hshows as [Hdate _]. rewrite <- Hdate.
           eapply DateFacts.leb_trans; [apply Hmin, Hwider, Hkd0 |].
           apply selected_In in Hkd0. apply Hkd0.
        -- intros kd' Hkd'. apply Hmin, Hwider, Hkd'.
Qed.

End WithConst.

End CalendarFacts.

(** ** Strings and dictionaries *)

Module StrFacts.

Lemma length_append (s t : string) :
  String.length (s ++ t) = (String.length s + String.length t)%nat.
Proof. induction s as [| c s IH]; simpl; [| rewrite IH]; reflexivity. Qed.

Lemma append_cancel_l (a x y : string) :
  (a ++ x)%string = (a ++ y)%string -> x = y.
Proof.
  induction a as [| c a IH]; simpl; intros H; [exact H |].
  inversion H. auto.
Qed.

(** Two concatenations with tails of one length agree part by part. *)
Lemma append_cancel_r (x y s t : string) :
  String.length s = String.length t ->
  (x ++ s)%string = (y ++ t)%string -> x = y /\ s = t.
Proof.
  intros Hlen. revert y.
  induction x as [| c x IH]; intros [| c' y] H; simpl in H.
  - split; [reflexivity | exact H].
  - apply (f_equal String.length) in H. simpl in H.
    rewrite length_append in H. lia.
  - apply (f_equal String.length) in H. simpl in H.
    rewrite length_append in H. lia.
  - inversion H as [[Hc Hrest]]. destruct (IH _ Hrest) as [-> ->].
    split; reflexivity.
Qed.

Lemma length_repeat (c : ascii) (n : nat) :
  String.length (PyStr.repeat c n) = n.
Proof. induction n as [| n IH]; simpl; [| rewrite IH]; reflexivity. Qed.






Lemma replace_repeat_a (n : nat) :
  PyStr.replace " " "_" (PyStr.repeat "a" n) = PyStr.repeat "a" n.
Proof. induction n as [| n IH]; simpl; [| rewrite IH]; reflexivity. Qed.

End StrFacts.

Module PyDictFacts.

Section Facts.
Variable V : Type.

(** The length of the longest key. *)
Fixpoint longest_key (d : PyDict.t V) : nat :=
  match d with
  | [] => O
  | (k, _) :: rest => Nat.max (String.length k) (longest_key rest)
  end.

(** A key longer than every key of the dictionary is not in it. *)
Lemma get_longer_key (d : PyDict.t V) (k : string) :
  (longest_key d < String.length k)%nat -> PyDict.get d k = None.
Proof.
  induction d as [| [k' v] rest IH]; simpl; intros Hlong; [reflexivity |].
  destruct (String.eqb_spec k' k) as [-> | _]; [lia |].
  apply IH. lia.
Qed.

Lemma get_In (d : PyDict.t V) (k : string) (v : V) :
  PyDict.get d k = Some v -> In (k, v) (PyDict.items d).
Proof.
  induction d as [| [k' v'] rest IH]; simpl; intros H; [discriminate |].
  destruct (String.eqb_spec k' k) as [-> | _].
  - inversion H. left. reflexivity.
  - right. apply IH, H.
Qed.

Lemma get_None_keys (d : PyDict.t V) (k : string) :
  PyDict.get d k = None <-> ~ In k (PyDict.keys d).
Proof.
  induction d as [| [k' v'] rest IH]; simpl.
  - tauto.
  - destruct (String.eqb_spec k' k) as [-> | Hne].
    + split; [discriminate | intros H; exfalso; apply H; left; reflexivity].
    + rewrite IH. tauto.
Qed.

Lemma In_get (d : PyDict.t V) (k : string) (v : V) :
  PyDict.wf d -> In (k, v) (PyDict.items d) -> PyDict.get d k = Some v.
Proof.
  unfold PyDict.wf, PyDict.items.
  induction d as [| [k' v'] rest IH]; simpl; intros Hwf Hin; [destruct Hin |].
  inversion Hwf as [| ? ? Hnotin Hrest]; subst.
  destruct Hin as [Heq | Hin].
  - inversion Heq; subst. rewrite String.eqb_refl. reflexivity.
  - destruct (String.eqb_spec k' k) as [-> | _].
    + exfalso. apply Hnotin. apply (in_map fst) in Hin. exact Hin.
    + apply IH; assumption.
Qed.

Lemma get_set_same (d : PyDict.t V) (k : string) (v : V) :
  PyDict.get (PyDict.set d k v) k = Some v.
Proof.
  induction d as [| [k' v'] rest IH]; simpl.
  - rewrite String.eqb_refl. reflexivity.
  - destruct (String.eqb_spec k' k) as [-> | Hne]; simpl.
    + rewrite String.eqb_refl. reflexivity.
    + apply String.eqb_neq in Hne. rewrite Hne. exact IH.
Qed.

Lemma get_set_other (d : PyDict.t V) (k k' : string) (v : V) :
  k' <> k -> PyDict.get (PyDict.set d k v) k' = PyDict.get d k'.
Proof.
  intros Hne. induction d as [| [k0 v0] rest IH]; simpl.
  - destruct (String.eqb_spec k k') as [-> | _]; [contradiction | reflexivity].
  - destruct (String.eqb_spec k0 k) as [-> | Hne0]; simpl.
    + destruct (String.eqb_spec k k') as [-> | _];
        [contradiction | reflexivity].
    + rewrite IH. reflexivity.
Qed.

Lemma In_keys_set (d : PyDict.t V) (k k' : string) (v : V) :
  In k' (PyDict.keys (PyDict.set d k v)) <-> k' = k \/ In k' (PyDict.keys d).
Proof.
  induction d as [| [k0 v0] rest IH]; simpl.
  - intuition congruence.
  - destruct (String.eqb_spec k0 k) as [-> | Hne]; simpl.
    + intuition congruence.
    + rewrite IH. intuition congruence.
Qed.

Lemma set_wf (d : PyDict.t V) (k : string) (v : V) :
  PyDict.wf d -> PyDict.wf (PyDict.set d k v).
Proof.
  unfold PyDict.wf.
  induction d as [| [k0 v0] rest IH]; simpl; intros Hwf.
  - constructor; [intros [] | constructor].
  - inversion Hwf as [| ? ? Hnotin Hrest]; subst.
    destruct (String.eqb_spec k0 k) as [-> | Hne]; simpl.
    + constructor; assumption.
    + constructor; [| apply IH; exact Hrest].
      intros Hin. apply In_keys_set in Hin.
      destruct Hin as [-> | Hin]; [apply Hne; reflexivity | contradiction].
Qed.

End Facts.

End PyDictFacts.

(** ** Example data, after the fixtures of the tests *)

Module Examples.

(** A table of known fractions.  The tests pin down one entry of const.py:
    the icon of Restavfall. *)
Definition table : PyDict.t (PyDict.t string) :=
  [("Restavfall", [("translation_key", "restavfall");
                   ("icon", "mdi:trash-can")]);
   ("Matavfall", [("translation_key", "matavfall");
                  ("icon", "mdi:food-apple")])].

Definition today : Date.t := Date.make 2026 11 4.
Definition tomorrow : Date.t := Date.make 2026 11 5.
Definition noon (d : Date.t) : Datetime.t := Datetime.make d 43200000000.

Definition disposal (fraction : string) (d : Date.t)
    (description : option string) : WasteDisposal.t :=
  WasteDisposal.make (Datetime.make d 0) fraction description 15.

Definition entry : ConfigEntry.t :=
  ConfigEntry.make "test_entry_id" 1 "remidt_renovasjon" "Test Address"
    [("address_id", "test-uuid"); ("address_name", "Test Street 1");
     ("municipality", "Test Municipality")]
    [("update_interval", 12)].

Definition data_of (groups : PyDict.t (list WasteDisposal.t))
  : RenovasjonData.t :=
  RenovasjonData.make "test-uuid" "Test Street 1" "Test Municipality" groups.

Definition coordinator_of (data : option RenovasjonData.t) : Coordinator.t :=
  Coordinator.make entry data true None 0.

(** Restavfall today and tomorrow, Matavfall tomorrow. *)
Definition snapshot : RenovasjonData.t :=
  data_of [("Restavfall", [disposal "Restavfall" today None;
                            disposal "Restavfall" tomorrow None]);
           ("Matavfall", [disposal "Matavfall" tomorrow (Some "Food waste")])].

Definition coordinator : Coordinator.t := coordinator_of (Some snapshot).

Definition calendar : Calendar.RenovasjonCalendar :=
  Calendar.make "test_entry_id_calendar" "Renovasjon"
    "Renovasjon Test Street 1" "Test Municipality".

(** A collection on the last day the [date] type has. *)
Definition last_day_snapshot : RenovasjonData.t :=
  data_of [("Restavfall", [disposal "Restavfall" Date.max None])].


End Examples.

(** ** Event uids *)

Module UidFacts.

Import Calendar CalendarFacts.


Lemma isoformat_length (d : Date.t) : String.length (Date.isoformat d) = 10%nat.
Proof. reflexivity. Qed.


Section WithConst.

Variable WASTE_FRACTIONS : PyDict.t (PyDict.t string).
Variable str_lower : string -> string.



(** A fraction name no table knows, in two spellings. *)
Lemma unknown_twins :
  exists n,
    PyStr.repeat "A" (S n) <> PyStr.repeat "a" (S n) /\
    PyDict.get WASTE_FRACTIONS (PyStr.repeat "A" (S n)) = None /\
    PyDict.get WASTE_FRACTIONS (PyStr.repeat "a" (S n)) = None.
Proof.
  exists (PyDictFacts.longest_key WASTE_FRACTIONS).
  split; [simpl; discriminate |].
  split; apply PyDictFacts.get_longer_key; rewrite StrFacts.length_repeat; lia.
Qed.

Lemma translation_key_unknown (fraction : string) :
  PyDict.get WASTE_FRACTIONS fraction = None ->
  translation_key_of WASTE_FRACTIONS str_lower fraction
  = PyStr.replace " " "_" (str_lower fraction).
Proof.
  intros H. unfold translation_key_of, PyDict.get_default. rewrite H.
  reflexivity.
Qed.


End WithConst.

End UidFacts.

(** ** The calendar on the example data *)

Module CalendarExamples.

Import Calendar CalendarFacts.

(** The example of the spec: Restavfall today and tomorrow, Matavfall
    tomorrow give three events, today's first and tomorrow's two in the
    order of the fractions. *)
Example three_events :
  match
    _get_events_for_range Examples.table PyStr.ascii_lower Examples.calendar
      Examples.coordinator Examples.today Examples.tomorrow
  with
  | Ok events =>
      map (fun e => (CalendarEvent.summary e,
                     Date.isoformat (CalendarEvent.start e),
                     Date.isoformat (CalendarEvent.end_ e),
                     CalendarEvent.uid e)) events
      = [("Restavfall", "2026-11-04", "2026-11-05",
          "test_entry_id_calendar_restavfall_2026-11-04");
         ("Restavfall", "2026-11-05", "2026-11-06",
          "test_entry_id_calendar_restavfall_2026-11-05");
         ("Matavfall", "2026-11-05", "2026-11-06",
          "test_entry_id_calendar_matavfall_2026-11-05")]
  | Raise _ => False
  end.
Proof. vm_compute. reflexivity. Qed.

(** C1 on the example of the spec: three events, today's first. *)
Lemma range_query_events_witness :
  Coordinator.data Examples.coordinator = Some Examples.snapshot /\
  ends_representable Examples.snapshot Examples.today Examples.tomorrow /\
  exists events shown,
    _get_events_for_range Examples.table PyStr.ascii_lower Examples.calendar
      Examples.coordinator Examples.today Examples.tomorrow = Ok events /\
    Permutation shown
      (selected Examples.snapshot Examples.today Examples.tomorrow) /\
    Forall2 (fun kd e =>
               CalendarEvent.start e = event_date (snd kd) /\
               Date.add_days (CalendarEvent.start e) 1
                 = Ok (CalendarEvent.end_ e) /\
               CalendarEvent.summary e = fst kd /\
               CalendarEvent.description e
                 = WasteDisposal.description (snd kd))
            shown events /\
    StronglySorted by_start events /\
    (RenovasjonData.grouped Examples.snapshot ->
     Forall2 (fun kd e => CalendarEvent.summary e
                          = WasteDisposal.fraction (snd kd)) shown events).
Proof.
  split; [reflexivity |].
  split; [repeat constructor |].
  apply (@range_query_events Examples.table PyStr.ascii_lower Examples.calendar
           Examples.coordinator Examples.snapshot
           Examples.today Examples.tomorrow);
    [reflexivity | repeat constructor].
Defined.

(** C1 as stated fails for a collection on 9999-12-31: the disposal lies
    in the range, and the query raises instead of returning its event. *)
Lemma range_query_last_day :
  let coordinator := Examples.coordinator_of (Some Examples.last_day_snapshot) in
  selected Examples.last_day_snapshot (Date.make 9999 12 1) Date.max
  = [("Restavfall", Examples.disposal "Restavfall" Date.max None)] /\
  Date.le (Date.make 9999 12 1) Date.max /\
  _get_events_for_range Examples.table PyStr.ascii_lower
      Examples.calendar coordinator
    (Date.make 9999 12 1) Date.max = Raise OverflowError.
Proof. repeat split. Qed.

(** C3 on the example of the spec, with midnight between the two
    readings of the clock: the next event is found in a window of 365
    days from one of the two. *)
Lemma next_event_witness :
  Coordinator.data Examples.coordinator = Some Examples.snapshot /\
  Date.next_day Examples.today = Ok Examples.tomorrow /\
  Date.add_days Examples.tomorrow 365 = Ok (Date.make 2027 11 5) /\
  Date.lt (Date.make 2027 11 5) Date.max /\
  exists now now_end,
    (now = Examples.today \/ now = Examples.tomorrow) /\
    Date.add_days now 365 = Ok now_end /\
    ((selected Examples.snapshot now now_end = [] /\
      event Examples.table PyStr.ascii_lower Examples.calendar
        Examples.coordinator Examples.today Examples.tomorrow = Ok None) \/
     (exists first kd,
        event Examples.table PyStr.ascii_lower Examples.calendar
          Examples.coordinator Examples.today Examples.tomorrow
        = Ok (Some first) /\
        In kd (selected Examples.snapshot now now_end) /\
        shows Examples.table PyStr.ascii_lower Examples.calendar kd first /\
        forall kd',
          In kd' (selected Examples.snapshot now now_end) ->
          Date.le (CalendarEvent.start first) (event_date (snd kd')))).
Proof.
  assert (Hdata : Coordinator.data Examples.coordinator = Some Examples.snapshot)
    by reflexivity.
  assert (Hnext : Date.next_day Examples.today = Ok Examples.tomorrow)
    by reflexivity.
  assert (Hwindow : Date.add_days Examples.tomorrow 365
                    = Ok (Date.make 2027 11 5))
    by (vm_compute; reflexivity).
  assert (Hend : Date.lt (Date.make 2027 11 5) Date.max) by reflexivity.
  split; [exact Hdata |]. split; [exact Hnext |]. split; [exact Hwindow |].
  split; [exact Hend |].
  exact (proj2 (next_event Examples.table PyStr.ascii_lower Examples.calendar
                  Examples.coordinator Examples.today Examples.tomorrow)
           Examples.snapshot (Date.make 2027 11 5) Hdata
           (or_intror Hnext) Hwindow Hend).
Defined.

(** The same example with one reading: today's Restavfall is the next
    event. *)
Example next_event_today :
  match
    event Examples.table PyStr.ascii_lower Examples.calendar
      Examples.coordinator Examples.today Examples.today
  with
  | Ok (Some first) =>
      CalendarEvent.summary first = "Restavfall" /\
      CalendarEvent.start first = Examples.today
  | _ => False
  end.
Proof. vm_compute. split; reflexivity. Qed.

(** The bound on the clock: once today plus 365 days is past the last
    date, the window has no end and the property raises. *)
Example event_at_end_of_calendar :
  let today := Date.make 9999 6 1 in
  event Examples.table PyStr.ascii_lower Examples.calendar
    Examples.coordinator today today
  = Raise OverflowError.
Proof. vm_compute. reflexivity. Qed.



End CalendarExamples.

(** ** The binary sensors *)

Module BinarySensorFacts.

Import BinarySensor.

(** A disposal is stored under a fraction of a snapshot. *)
Definition stored_under (data : RenovasjonData.t) (fraction : string)
    (d : WasteDisposal.t) : Prop :=
  exists disposals,
    PyDict.get (RenovasjonData.disposals_by_fraction data) fraction
    = Some disposals /\ In d disposals.

(** C2.  Without a snapshot [is_on] is [None].  With a snapshot it is a
    boolean, true exactly when some disposal stored under the sensor's
    fraction has the current date as its calendar date. *)
Theorem is_on_today (self : RenovasjonCollectionTodaySensor)
    (coordinator : Coordinator.t) (now : Datetime.t) :
  match Coordinator.data coordinator with
  | None => is_on self coordinator now = None
  | Some data =>
      exists b,
        is_on self coordinator now = Some b /\
        (b = true <->
         exists d, stored_under data (_fraction self) d /\
                   Datetime.date (WasteDisposal.date d) = Datetime.date now)
  end.
Proof.
  unfold is_on. destruct (Coordinator.data coordinator) as [data |];
    [| reflexivity].
  eexists. split; [reflexivity |].
  rewrite existsb_exists. unfold stored_under, PyDict.get_default.
  destruct (PyDict.get (RenovasjonData.disposals_by_fraction data)
              (_fraction self)) as [disposals |].
  - split.
    + intros [d [Hin Heq]]. exists d. split.
      * exists disposals. split; [reflexivity | exact Hin].
      * apply DateFacts.eqb_eq. exact Heq.
    + intros [d [[disposals' [Hget Hin]] Heq]].
      injection Hget as <-. exists d. split; [exact Hin |].
      apply DateFacts.eqb_eq. exact Heq.
  - split.
    + intros [d [[] _]].
    + intros [d [[disposals' [Hget _]] _]]. discriminate Hget.
Qed.

Section WithConst.

Variable WASTE_FRACTIONS : PyDict.t (PyDict.t string).
Variable str_lower : string -> string.

(** The icon a sensor keeps for its fraction: the configured one when the
    table has one, the check icon otherwise. *)
Definition configured_icon (fraction : string) : string :=
  match PyDict.get WASTE_FRACTIONS fraction with
  | Some fraction_config =>
      match PyDict.get fraction_config "icon" with
      | Some icon => icon
      | None => CHECK_ICON
      end
  | None => CHECK_ICON
  end.

Lemma __init___Ok (coordinator : Coordinator.t) (fraction : string)
    (self : RenovasjonCollectionTodaySensor) :
  __init__ WASTE_FRACTIONS str_lower coordinator fraction = Ok self ->
  _fraction self = fraction /\ _icon self = configured_icon fraction.
Proof.
  unfold __init__. destruct (Coordinator.data coordinator); [| discriminate].
  intros H. injection H as <-. simpl. split; [reflexivity |].
  unfold configured_icon, PyDict.get_default.
  destruct (PyDict.get WASTE_FRACTIONS fraction); reflexivity.
Qed.

Lemma __init___data (coordinator : Coordinator.t) (fraction : string)
    (data : RenovasjonData.t) :
  Coordinator.data coordinator = Some data ->
  exists self, __init__ WASTE_FRACTIONS str_lower
      coordinator fraction = Ok self.
Proof. intros H. unfold __init__. rewrite H. eexists. reflexivity. Qed.

(** C9 (as amended).  For a sensor constructed for a fraction, [icon] is
    the check icon whenever [is_on] is true, and otherwise the icon kept at
    construction: the one the table of known fractions configures for the
    fraction, or the check icon itself when it configures none. *)
Theorem icon_by_state (constructed_with : Coordinator.t) (fraction : string)
    (self : RenovasjonCollectionTodaySensor) (coordinator : Coordinator.t)
    (now : Datetime.t) :
  __init__ WASTE_FRACTIONS str_lower constructed_with fraction = Ok self ->
  (is_on self coordinator now = Some true ->
   icon self coordinator now = CHECK_ICON) /\
  (is_on self coordinator now <> Some true ->
   icon self coordinator now = configured_icon fraction).
Proof.
  intros Hinit. apply __init___Ok in Hinit. destruct Hinit as [_ Hicon].
  unfold icon. split.
  - intros ->. reflexivity.
  - intros Hoff. rewrite <- Hicon.
    destruct (is_on self coordinator now) as [[|] |];
      [contradiction Hoff |..]; reflexivity.
Qed.

Lemma create_sensors_ok (coordinator : Coordinator.t) (data : RenovasjonData.t)
    (fractions : list string)
    (entities : list RenovasjonCollectionTodaySensor) :
  Coordinator.data coordinator = Some data ->
  exists created,
    create_sensors WASTE_FRACTIONS str_lower coordinator fractions entities
    = Ok (entities ++ created) /\
    Forall2 (fun fraction sensor =>
               __init__ WASTE_FRACTIONS str_lower
                   coordinator fraction = Ok sensor)
            fractions created.
Proof.
  intros Hdata. revert entities.
  induction fractions as [| fraction rest IH]; intros entities;
    cbn [create_sensors].
  - exists []. rewrite app_nil_r. split; [reflexivity | constructor].
  - destruct (__init___data coordinator fraction Hdata) as [sensor Hsensor].
    rewrite Hsensor, bind_Ok.
    destruct (IH (entities ++ [sensor])) as [created [Hrun Hall]].
    exists (sensor :: created). rewrite Hrun, <- app_assoc.
    split; [reflexivity | constructor; assumption].
Qed.

Lemma run_updates_same (entities : list RenovasjonCollectionTodaySensor)
    (updates : list Coordinator.t) :
  run_updates entities updates = entities.
Proof.
  unfold run_updates. revert entities.
  induction updates as [| c rest IH]; intros entities; simpl;
    [reflexivity |].
  rewrite IH. unfold on_coordinator_update, _handle_coordinator_update.
  apply map_id.
Qed.

Section WithHost.

Variable async_config_entry_first_refresh :
  Coordinator.t -> result Coordinator.t.

(** C10.  When the first refresh returns, the setup hands over, for the
    snapshot the refresh left, exactly one sensor per fraction key, in the
    order of the keys, and no entity at all when there is no snapshot.
    The coordinator updates that follow leave this list of entities as it
    is: no later snapshot adds a sensor. *)
Theorem setup_sensors (hass_data : Registry) (entry : ConfigEntry.t)
    (coordinator refreshed : Coordinator.t) :
  registry_lookup hass_data (ConfigEntry.entry_id entry) = Ok coordinator ->
  async_config_entry_first_refresh coordinator = Ok refreshed ->
  exists entities,
    async_setup_entry WASTE_FRACTIONS str_lower async_config_entry_first_refresh
      hass_data entry = Ok (refreshed, entities) /\
    match Coordinator.data refreshed with
    | None => entities = []
    | Some data =>
        Forall2 (fun fraction sensor =>
                   __init__ WASTE_FRACTIONS str_lower
                       refreshed fraction = Ok sensor /\
                   _fraction sensor = fraction)
                (RenovasjonData.fractions data) entities /\
        (PyDict.wf (RenovasjonData.disposals_by_fraction data) ->
         NoDup (map _fraction entities))
    end /\
    forall later_snapshots, run_updates entities later_snapshots = entities.
Proof.
  intros Hlookup Hrefresh. unfold async_setup_entry.
  rewrite Hlookup, bind_Ok, Hrefresh, bind_Ok.
  destruct (Coordinator.data refreshed) as [data |] eqn:Hdata.
  - destruct (@create_sensors_ok refreshed data
                (RenovasjonData.fractions data) [] Hdata)
      as [created [Hrun Hall]].
    rewrite Hrun, bind_Ok. simpl. exists created.
    split; [reflexivity |].
    assert (Hfractions : Forall2 (fun fraction sensor =>
                            __init__ WASTE_FRACTIONS str_lower
                                refreshed fraction
                            = Ok sensor /\ _fraction sensor = fraction)
                           (RenovasjonData.fractions data) created).
    { eapply Forall2_impl; [| exact Hall].
      intros fraction sensor Hinit. split; [exact Hinit |].
      apply __init___Ok in Hinit. apply Hinit. }
    split; [split; [exact Hfractions |] | intros; apply run_updates_same].
    intros Hwf.
    assert (Hsame : map _fraction created = RenovasjonData.fractions data).
    { clear - Hfractions. induction Hfractions as [| f s fs ss [_ Hf] _ IH];
        simpl; [reflexivity |]. rewrite Hf, IH. reflexivity. }
    rewrite Hsame. exact Hwf.
  - simpl. exists []. split; [reflexivity |].
    split; [reflexivity | intros; apply run_updates_same].
Qed.

(** When the first refresh raises, so does the setup: nothing is added. *)
Lemma setup_refresh_failed (hass_data : Registry) (entry : ConfigEntry.t)
    (coordinator : Coordinator.t) (e : exn) :
  registry_lookup hass_data (ConfigEntry.entry_id entry) = Ok coordinator ->
  async_config_entry_first_refresh coordinator = Raise e ->
  async_setup_entry WASTE_FRACTIONS str_lower async_config_entry_first_refresh
    hass_data entry = Raise e.
Proof.
  intros Hlookup Hrefresh. unfold async_setup_entry.
  rewrite Hlookup, bind_Ok, Hrefresh. reflexivity.
Qed.

End WithHost.

End WithConst.

End BinarySensorFacts.

(** ** The binary sensors on the example data *)

Module BinarySensorExamples.

Import BinarySensor BinarySensorFacts.

Definition restavfall_sensor : RenovasjonCollectionTodaySensor :=
  make "Restavfall" "mdi:trash-can" "test_entry_id_Restavfall_today"
    "restavfall_today" "Restavfall today" "Renovasjon Test Street 1"
    "Test Municipality".

(** The example of the spec: Restavfall is collected today, Matavfall is
    not. *)
Example is_on_example :
  is_on restavfall_sensor Examples.coordinator (Examples.noon Examples.today)
  = Some true /\
  (exists matavfall_sensor,
     __init__ Examples.table PyStr.ascii_lower Examples.coordinator "Matavfall"
     = Ok matavfall_sensor /\
     is_on matavfall_sensor Examples.coordinator
       (Examples.noon Examples.today) = Some false) /\
  is_on restavfall_sensor (Examples.coordinator_of None)
    (Examples.noon Examples.today) = None.
Proof.
  split; [reflexivity |]. split; [| reflexivity].
  eexists. split; reflexivity.
Qed.

(** C9 at Restavfall: the trash can when off, the check icon when on. *)
Lemma icon_by_state_witness :
  __init__ Examples.table PyStr.ascii_lower Examples.coordinator "Restavfall"
  = Ok restavfall_sensor /\
  (is_on restavfall_sensor Examples.coordinator (Examples.noon Examples.today)
   = Some true ->
   icon restavfall_sensor Examples.coordinator (Examples.noon Examples.today)
   = CHECK_ICON) /\
  (is_on restavfall_sensor Examples.coordinator (Examples.noon Examples.today)
   <> Some true ->
   icon restavfall_sensor Examples.coordinator (Examples.noon Examples.today)
   = configured_icon Examples.table "Restavfall").
Proof.
  split; [reflexivity |].
  apply (@icon_by_state Examples.table PyStr.ascii_lower
      Examples.coordinator "Restavfall"
           restavfall_sensor Examples.coordinator
           (Examples.noon Examples.today)).
  reflexivity.
Defined.

(** C9 as stated fails for a fraction the table does not know: the icon
    kept for it is the check icon, shown also while the sensor is off; and
    whatever the table of known fractions and whatever [str.lower] does,
    some fraction is not in the table. *)
Lemma icon_unknown_fraction :
  match __init__ Examples.table PyStr.ascii_lower
      Examples.coordinator "Papir" with
  | Ok papir_sensor =>
      is_on papir_sensor Examples.coordinator (Examples.noon Examples.today)
      = Some false /\
      icon papir_sensor Examples.coordinator (Examples.noon Examples.today)
      = CHECK_ICON
  | Raise _ => False
  end /\
  ~ (exists WASTE_FRACTIONS str_lower,
       forall constructed_with fraction self coordinator now,
         __init__ WASTE_FRACTIONS str_lower constructed_with fraction
         = Ok self ->
         is_on self coordinator now <> Some true ->
         icon self coordinator now <> CHECK_ICON).
Proof.
  split; [split; reflexivity |].
  intros [W [lower Hdistinct]].
  destruct (UidFacts.unknown_twins W) as [n [_ [Hunknown _]]].
  destruct (@__init___data W lower Examples.coordinator
              (PyStr.repeat "A" (S n)) Examples.snapshot eq_refl)
    as [self Hself].
  apply (Hdistinct _ _ self (Examples.coordinator_of None)
           (Examples.noon Examples.today) Hself); [discriminate |].
  apply __init___Ok in Hself. destruct Hself as [_ Hicon].
  unfold icon. simpl. rewrite Hicon. unfold configured_icon.
  rewrite Hunknown. reflexivity.
Qed.

(** The first refresh of the example: the poll succeeds and leaves the
    example snapshot. *)
Definition first_refresh (coordinator : Coordinator.t)
  : result Coordinator.t :=
  Ok (Coordinator.make (Coordinator.config_entry coordinator)
        (Some Examples.snapshot) true None
        (S (Coordinator.refresh_count coordinator))).

(** C10 on the example: two fractions, two sensors. *)
Lemma setup_sensors_witness :
  let hass_data := [("test_entry_id", Examples.coordinator_of None)] in
  let refreshed :=
    Coordinator.make Examples.entry (Some Examples.snapshot) true None 1 in
  registry_lookup hass_data (ConfigEntry.entry_id Examples.entry)
  = Ok (Examples.coordinator_of None) /\
  first_refresh (Examples.coordinator_of None) = Ok refreshed /\
  exists entities,
    async_setup_entry Examples.table PyStr.ascii_lower
        first_refresh hass_data Examples.entry
    = Ok (refreshed, entities) /\
    match Coordinator.data refreshed with
    | None => entities = []
    | Some data =>
        Forall2 (fun fraction sensor =>
                   __init__ Examples.table PyStr.ascii_lower
                       refreshed fraction = Ok sensor /\
                   _fraction sensor = fraction)
                (RenovasjonData.fractions data) entities /\
        (PyDict.wf (RenovasjonData.disposals_by_fraction data) ->
         NoDup (map _fraction entities))
    end /\
    forall later_snapshots, run_updates entities later_snapshots = entities.
Proof.
  intros hass_data refreshed.
  split; [reflexivity |]. split; [reflexivity |].
  apply (@setup_sensors Examples.table PyStr.ascii_lower
      first_refresh hass_data Examples.entry
           (Examples.coordinator_of None) refreshed);
    reflexivity.
Defined.

End BinarySensorExamples.

(** ** The refresh service *)

Module ServiceFacts.

Import Service.


Section WithPoll.

Variable poll : Coordinator.t -> Coordinator.t.


Lemma keys_set_present (registry : Registry) (entry_id : string)
    (old new : Coordinator.t) :
  PyDict.get registry entry_id = Some old ->
  PyDict.keys (PyDict.set registry entry_id new) = PyDict.keys registry.
Proof.
  induction registry as [| [k c] rest IH]; simpl; intros Hget;
    [discriminate |].
  destruct (String.eqb_spec k entry_id) as [-> | _]; simpl.
  - reflexivity.
  - rewrite IH by exact Hget. reflexivity.
Qed.


End WithPoll.

(** A registry of two entries, the first one under the empty id. *)
Definition two_entries : Registry :=
  [("", Examples.coordinator_of None); ("home", Examples.coordinator)].


(** A poll that finds the portal unchanged. *)
Definition same_data (coordinator : Coordinator.t) : Coordinator.t :=
  coordinator.

(** The empty entry id counts as none: were a coordinator registered under
    it, a call naming it would refresh the other coordinators as well. *)
Example empty_id_refreshes_all :
  let call_data := [("entry_id", "")] in
  PyDict.get call_data "entry_id" = Some "" /\
  PyDict.contains two_entries "" = true /\
  exists refreshed other,
    async_refresh_service same_data two_entries call_data = Ok refreshed /\
    PyDict.get refreshed "home" = Some other /\
    Coordinator.refresh_count Examples.coordinator = 0%nat /\
    Coordinator.refresh_count other = 1%nat.
Proof.
  split; [reflexivity |]. split; [reflexivity |].
  eexists. eexists. split; [reflexivity |]. split; [reflexivity |].
  split; reflexivity.
Qed.

End ServiceFacts.

(** ** The refresh service among the other tasks *)

Module ServiceLiveFacts.

Import ServiceLive.





Section WithTasks.

Variable poll : Coordinator.t -> Coordinator.t.
Variable other_tasks : nat -> Registry -> Registry.






End WithTasks.





End ServiceLiveFacts.

(** ** Grouping by fraction *)

Module GroupingFacts.

Import Grouping.

(** The groups hold each disposal under the key of its own fraction. *)
Definition own_keys (groups : PyDict.t (list WasteDisposal.t)) : Prop :=
  forall k ds d, In (k, ds) (PyDict.items groups) -> In d ds ->
                 WasteDisposal.fraction d = k.

(** All the disposals of the groups, group after group. *)
Definition all_disposals (groups : PyDict.t (list WasteDisposal.t))
  : list WasteDisposal.t :=
  List.concat (PyDict.values groups).

(** One step of the loop: the disposal joins the group of its fraction. *)
Definition add_disposal (groups : PyDict.t (list WasteDisposal.t))
    (d : WasteDisposal.t) : PyDict.t (list WasteDisposal.t) :=
  PyDict.set groups (WasteDisposal.fraction d)
    (PyDict.get_default groups (WasteDisposal.fraction d) [] ++ [d]).

Lemma In_set (V : Type) (groups : PyDict.t V) (k k' : string) (v v' : V) :
  In (k', v') (PyDict.items (PyDict.set groups k v)) ->
  (k' = k /\ v' = v) \/ In (k', v') (PyDict.items groups).
Proof.
  unfold PyDict.items.
  induction groups as [| [k0 v0] rest IH]; simpl.
  - intros [H | []]. inversion H. left. split; reflexivity.
  - destruct (String.eqb_spec k0 k) as [-> | _]; simpl.
    + intros [H | H]; [inversion H; left; split; reflexivity | right; right; exact H].
    + intros [H | H]; [right; left; exact H |].
      destruct (IH H) as [Hnew | Hold]; [left | right; right]; assumption.
Qed.

Lemma add_disposal_own_keys (groups : PyDict.t (list WasteDisposal.t))
    (d : WasteDisposal.t) :
  own_keys groups -> own_keys (add_disposal groups d).
Proof.
  intros Hown k ds d' Hin Hd'. unfold add_disposal in Hin.
  apply In_set in Hin. destruct Hin as [[-> ->] | Hin].
  - apply in_app_or in Hd'. destruct Hd' as [Hd' | [<- | []]];
      [| reflexivity].
    unfold PyDict.get_default in Hd'.
    destruct (PyDict.get groups (WasteDisposal.fraction d)) as [ds |] eqn:Hget;
      [| destruct Hd'].
    apply PyDictFacts.get_In in Hget. eapply Hown; eassumption.
  - eapply Hown; eassumption.
Qed.

Lemma add_disposal_all (groups : PyDict.t (list WasteDisposal.t))
    (d : WasteDisposal.t) :
  Permutation (all_disposals (add_disposal groups d))
              (all_disposals groups ++ [d]).
Proof.
  unfold add_disposal, all_disposals, PyDict.values, PyDict.get_default.
  induction groups as [| [k0 v0] rest IH]; simpl.
  - apply Permutation_refl.
  - destruct (String.eqb_spec k0 (WasteDisposal.fraction d)) as [Heq | _];
      simpl.
    + rewrite <- !app_assoc. apply Permutation_app_head, Permutation_app_comm.
    + rewrite <- app_assoc. apply Permutation_app_head. exact IH.
Qed.

Lemma add_disposal_get (groups : PyDict.t (list WasteDisposal.t))
    (d : WasteDisposal.t) (k : string) :
  PyDict.get_default (add_disposal groups d) k []
  = PyDict.get_default groups k []
      ++ (if String.eqb (WasteDisposal.fraction d) k then [d] else []).
Proof.
  unfold add_disposal, PyDict.get_default at 1 3.
  destruct (String.eqb_spec (WasteDisposal.fraction d) k) as [<- | Hne].
  - rewrite PyDictFacts.get_set_same. reflexivity.
  - rewrite PyDictFacts.get_set_other by congruence.
    rewrite app_nil_r. reflexivity.
Qed.

Lemma group_by_fraction_step (disposals : list WasteDisposal.t)
    (groups : PyDict.t (list WasteDisposal.t)) :
  let grouped := group_by_fraction disposals groups in
  (PyDict.wf groups -> PyDict.wf grouped) /\
  (own_keys groups -> own_keys grouped) /\
  Permutation (all_disposals grouped) (all_disposals groups ++ disposals) /\
  forall k,
    PyDict.get_default grouped k []
    = PyDict.get_default groups k []
        ++ filter (fun d => String.eqb (WasteDisposal.fraction d) k) disposals.
Proof.
  revert groups.
  induction disposals as [| d rest IH]; intros groups; cbn zeta;
    cbn [group_by_fraction].
  - rewrite app_nil_r. repeat split; auto.
    intros k. cbn [filter]. rewrite app_nil_r. reflexivity.
  - fold (add_disposal groups d).
    destruct (IH (add_disposal groups d)) as [Hwf [Hown [Hperm Hget]]].
    split; [intros H; apply Hwf, PyDictFacts.set_wf, H |].
    split; [intros H; apply Hown, add_disposal_own_keys, H |].
    split.
    + eapply perm_trans; [exact Hperm |].
      eapply perm_trans;
        [apply Permutation_app_tail, add_disposal_all |].
      rewrite <- app_assoc. apply Permutation_refl.
    + intros k. rewrite Hget, add_disposal_get, <- app_assoc. cbn [filter].
      destruct (String.eqb (WasteDisposal.fraction d) k); reflexivity.
Qed.

(** C4.  Grouping a list of disposals by fraction gives a dictionary in
    which every disposal stands under the key of its own fraction, whose
    groups together hold the input's disposals, each as often as the input
    has it, and in which the group of a fraction is the input's disposals
    of that fraction in their upstream order; the published snapshot keeps
    the invariant. *)
Theorem grouping_by_fraction (disposals : list WasteDisposal.t)
    (address_id address_name municipality : string) :
  let groups := group_by_fraction disposals [] in
  PyDict.wf groups /\
  own_keys groups /\
  Permutation (all_disposals groups) disposals /\
  (forall k,
     PyDict.get_default groups k []
     = filter (fun d => String.eqb (WasteDisposal.fraction d) k) disposals) /\
  RenovasjonData.grouped
    (publish address_id address_name municipality disposals).
Proof.
  cbn zeta.
  destruct (group_by_fraction_step disposals []) as [Hwf [Hown [Hperm Hget]]].
  assert (Hempty : own_keys []) by (intros k ds d []).
  split; [apply Hwf; constructor |].
  split; [apply Hown, Hempty |].
  split; [exact Hperm |].
  split; [intros k; apply Hget |].
  unfold RenovasjonData.grouped, publish. simpl. apply Hown, Hempty.
Qed.

End GroupingFacts.

(** ** The selection steps of the config flow *)

Module ConfigFlowFacts.

Import ConfigFlow.

Lemma find_address_absent (addresses : list AddressSearchResult)
    (address_id : string) :
  (forall a, In a addresses -> id a <> address_id) ->
  find_address addresses address_id = None.
Proof.
  unfold find_address.
  induction addresses as [| a rest IH]; simpl; intros Habsent;
    [reflexivity |].
  destruct (String.eqb_spec (id a) address_id) as [Heq | _].
  - exfalso. apply (Habsent a); [left; reflexivity | exact Heq].
  - apply IH. intros a' Hin. apply Habsent. right. exact Hin.
Qed.

Section WithApi.

Variable get_disposals : string -> ApiFailure + list WasteDisposal.t.

(** C5.  In both selection steps, an address id that is not among the
    cached addresses shows the step's own form again with the base error
    invalid_address, and neither creates nor updates a config entry. *)
Theorem invalid_address_reshows (addresses : list AddressSearchResult)
    (address_id : string) :
  (forall a, In a addresses -> id a <> address_id) ->
  async_step_select get_disposals addresses (Some address_id)
  = FORM "select" [("base", "invalid_address")] /\
  async_step_reconfigure_select get_disposals addresses (Some address_id)
  = FORM "reconfigure_select" [("base", "invalid_address")] /\
  touches_entry (async_step_select get_disposals addresses (Some address_id))
  = false /\
  touches_entry
    (async_step_reconfigure_select get_disposals addresses (Some address_id))
  = false.
Proof.
  intros Habsent.
  unfold async_step_select, async_step_reconfigure_select, selection_step.
  rewrite (find_address_absent _ Habsent). repeat split.
Qed.

End WithApi.

(** C5 on the test [test_step_select_invalid_address]. *)
Lemma invalid_address_reshows_witness :
  let addresses := [make "valid-uuid" "Valid Street" "Municipality"] in
  let portal := fun _ : string => inr (B := list WasteDisposal.t) [] in
  (forall a, In a addresses -> id a <> "invalid-uuid") /\
  async_step_select portal addresses (Some "invalid-uuid")
  = FORM "select" [("base", "invalid_address")] /\
  async_step_reconfigure_select portal addresses (Some "invalid-uuid")
  = FORM "reconfigure_select" [("base", "invalid_address")] /\
  touches_entry (async_step_select portal addresses (Some "invalid-uuid"))
  = false /\
  touches_entry
    (async_step_reconfigure_select portal addresses (Some "invalid-uuid"))
  = false.
Proof.
  intros addresses portal.
  assert (Habsent : forall a, In a addresses -> id a <> "invalid-uuid").
  { intros a [<- | []]. simpl. discriminate. }
  split; [exact Habsent |].
  apply (@invalid_address_reshows portal addresses "invalid-uuid" Habsent).
Defined.

End ConfigFlowFacts.

(** ** Diagnostics *)

Module DiagnosticsFacts.

Import Diagnostics.

(** C6.  The diagnostics always has the sections config_entry and
    coordinator; it has a data key exactly when the coordinator has a
    snapshot; and the last_exception of the coordinator section is the
    string form of the last exception, or null when there is none. *)
Theorem diagnostics_sections (entry : ConfigEntry.t)
    (coordinator : Coordinator.t) :
  let diagnostics := async_get_config_entry_diagnostics entry coordinator in
  PyDict.contains diagnostics "config_entry" = true /\
  PyDict.contains diagnostics "coordinator" = true /\
  PyDict.contains diagnostics "data"
  = match Coordinator.data coordinator with
    | Some _ => true
    | None => false
    end /\
  exists section,
    PyDict.get diagnostics "coordinator" = Some (VDict section) /\
    PyDict.get section "last_exception"
    = Some (match Coordinator.last_exception coordinator with
            | Some e => VStr (PyException.str e)
            | None => VNone
            end).
Proof.
  cbn zeta. unfold async_get_config_entry_diagnostics.
  destruct (Coordinator.data coordinator) as [data |];
    (repeat split; eexists; split; reflexivity).
Qed.

End DiagnosticsFacts.

(** * Further properties of the platforms *)

(** ** The range query: when it returns, ties, sub-ranges *)

Module CalendarMore.

Import Calendar CalendarFacts.

(** The events that start on one day. *)
Definition on_day (d : Date.t) (e : CalendarEvent.t) : bool :=
  Date.eqb (CalendarEvent.start e) d.

(** The events that start within a range. *)
Definition starts_within (start end_ : Date.t) (e : CalendarEvent.t) : bool :=
  (Date.leb start (CalendarEvent.start e)
   && Date.leb (CalendarEvent.start e) end_)%bool.

Lemma leb_of_eqb (a b : Date.t) : Date.eqb a b = true -> Date.leb a b = true.
Proof. intros H. apply DateFacts.eqb_eq in H. subst. apply DateFacts.leb_refl. Qed.

(** Inserting keeps the order of the events of any one day: the new event
    goes before the old ones of its day. *)
Lemma insert_by_start_on_day (d : Date.t) (e : CalendarEvent.t)
    (l : list CalendarEvent.t) :
  filter (on_day d) (insert_by_start e l) = filter (on_day d) (e :: l).
Proof.
  induction l as [| e' rest IH]; [reflexivity |].
  cbn [insert_by_start].
  destruct (Date.leb (CalendarEvent.start e) (CalendarEvent.start e')) eqn:Hle;
    [reflexivity |].
  cbn [filter]. rewrite IH. cbn [filter].
  destruct (on_day d e') eqn:He'; [| reflexivity].
  destruct (on_day d e) eqn:He; [| reflexivity].
  unfold on_day in He, He'.
  apply DateFacts.eqb_eq in He. apply DateFacts.eqb_eq in He'.
  rewrite He, He', DateFacts.leb_refl in Hle. discriminate Hle.
Qed.

Lemma sort_by_start_on_day (d : Date.t) (l : list CalendarEvent.t) :
  filter (on_day d) (sort_by_start l) = filter (on_day d) l.
Proof.
  induction l as [| e rest IH]; [reflexivity |].
  cbn [sort_by_start]. rewrite insert_by_start_on_day.
  cbn [filter]. rewrite IH. reflexivity.
Qed.

Lemma insert_by_start_first (e : CalendarEvent.t) (l : list CalendarEvent.t) :
  Forall (by_start e) l -> insert_by_start e l = e :: l.
Proof.
  intros Hall. destruct l as [| e' rest]; [reflexivity |].
  inversion Hall as [| ? ? Hle _]; subst. cbn [insert_by_start].
  unfold by_start, Date.le in Hle. rewrite Hle. reflexivity.
Qed.

Lemma Forall_filter_keep (A : Type) (P : A -> Prop) (f : A -> bool)
    (l : list A) :
  Forall P l -> Forall P (filter f l).
Proof.
  rewrite !Forall_forall. intros H x Hin. apply filter_In in Hin.
  apply H, Hin.
Qed.

(** Filtering commutes with inserting into a sorted list. *)
Lemma filter_insert_by_start (keep : CalendarEvent.t -> bool)
    (e : CalendarEvent.t) (l : list CalendarEvent.t) :
  StronglySorted by_start l ->
  filter keep (insert_by_start e l)
  = if keep e then insert_by_start e (filter keep l) else filter keep l.
Proof.
  induction 1 as [| e' rest Hsorted IH Hall].
  - cbn [insert_by_start filter]. destruct (keep e); reflexivity.
  - cbn [insert_by_start].
    destruct (Date.leb (CalendarEvent.start e) (CalendarEvent.start e'))
      eqn:Hle.
    + cbn [filter]. destruct (keep e); [| reflexivity].
      destruct (keep e').
      * cbn [insert_by_start]. rewrite Hle. reflexivity.
      * symmetry. apply insert_by_start_first, Forall_filter_keep.
        eapply Forall_impl; [| exact Hall].
        intros x Hx. unfold by_start, Date.le in *.
        eapply DateFacts.leb_trans; eassumption.
    + cbn [filter]. rewrite IH.
      destruct (keep e'), (keep e); try reflexivity.
      cbn [insert_by_start]. rewrite Hle. reflexivity.
Qed.

Lemma filter_sort_by_start (keep : CalendarEvent.t -> bool)
    (l : list CalendarEvent.t) :
  filter keep (sort_by_start l) = sort_by_start (filter keep l).
Proof.
  induction l as [| e rest IH]; [reflexivity |].
  cbn [sort_by_start filter].
  rewrite filter_insert_by_start by apply sort_by_start_sorted.
  rewrite IH. destruct (keep e); reflexivity.
Qed.

Lemma filter_map_comm (A B : Type) (f : A -> B) (p : B -> bool)
    (l : list A) :
  filter p (map f l) = map f (filter (fun x => p (f x)) l).
Proof.
  induction l as [| x rest IH]; [reflexivity |].
  cbn [map filter]. destruct (p (f x)); cbn [map]; rewrite IH; reflexivity.
Qed.

Lemma filter_filter_sub (A : Type) (p q : A -> bool) (l : list A) :
  (forall x, p x = true -> q x = true) ->
  filter p (filter q l) = filter p l.
Proof.
  intros Hsub. induction l as [| x rest IH]; [reflexivity |].
  cbn [filter]. destruct (q x) eqn:Hq; cbn [filter].
  - rewrite IH. reflexivity.
  - rewrite IH. destruct (p x) eqn:Hp; [| reflexivity].
    rewrite (Hsub x Hp) in Hq. discriminate Hq.
Qed.

Lemma in_range_sub (start end_ start' end' : Date.t) (d : WasteDisposal.t) :
  Date.le start start' -> Date.le end' end_ ->
  in_range start' end' d = true -> in_range start end_ d = true.
Proof.
  unfold in_range, Date.le. intros Hs He H.
  apply andb_true_iff in H. destruct H as [H1 H2].
  apply andb_true_iff. split; eapply DateFacts.leb_trans; eassumption.
Qed.

Lemma selected_sub (data : RenovasjonData.t)
    (start end_ start' end' : Date.t) :
  Date.le start start' -> Date.le end' end_ ->
  selected data start' end'
  = filter (fun kd => in_range start' end' (snd kd))
           (selected data start end_).
Proof.
  intros Hs He. unfold selected. symmetry. apply filter_filter_sub.
  intros kd. apply in_range_sub; assumption.
Qed.

Section WithConst.

Variable WASTE_FRACTIONS : PyDict.t (PyDict.t string).
Variable str_lower : string -> string.

(** X1.  With a snapshot, the range query returns a list exactly when
    every selected disposal has a following day; when some selected
    disposal falls on the last date, it raises [OverflowError] and
    returns no event at all, not even those of the other days. *)
Theorem range_query_returns_iff (self : RenovasjonCalendar)
    (coordinator : Coordinator.t) (data : RenovasjonData.t)
    (start end_ : Date.t) :
  Coordinator.data coordinator = Some data ->
  ((exists events,
      _get_events_for_range WASTE_FRACTIONS str_lower
          self coordinator start end_
      = Ok events) <-> ends_representable data start end_) /\
  (~ ends_representable data start end_ ->
   _get_events_for_range WASTE_FRACTIONS str_lower self coordinator start end_
   = Raise OverflowError).
Proof.
  intros Hdata.
  assert (Hraise : ~ ends_representable data start end_ ->
                   _get_events_for_range WASTE_FRACTIONS str_lower
                       self coordinator
                     start end_ = Raise OverflowError).
  { intros Hnot.
    apply (@range_query_overflow WASTE_FRACTIONS str_lower self coordinator data
             start end_ Hdata).
    unfold ends_representable in Hnot.
    apply neg_Forall_Exists_neg in Hnot.
    - eapply Exists_impl; [| exact Hnot].
      intros kd Hkd. unfold Date.le, Date.lt in *.
      destruct (Date.leb Date.max (event_date (snd kd))) eqn:Hmax;
        [reflexivity |].
      exfalso. apply Hkd. apply (DateFacts.leb_max_or_lt _ Hmax).
    - intros kd. unfold Date.lt.
      destruct (Date.ltb (event_date (snd kd)) Date.max);
        [left; reflexivity | right; discriminate]. }
  split; [| exact Hraise].
  split.
  - intros [events Hrun].
    destruct (Forall_Exists_dec
                (fun kd : string * WasteDisposal.t =>
                   Date.lt (event_date (snd kd)) Date.max)
                (fun kd => bool_dec (Date.ltb (event_date (snd kd)) Date.max)
                                    true)
                (selected data start end_)) as [Hall | Hex].
    + exact Hall.
    + exfalso. rewrite Hraise in Hrun; [discriminate Hrun |].
      intros Hall. apply Exists_exists in Hex. destruct Hex as [kd [Hin Hkd]].
      unfold ends_representable in Hall. rewrite Forall_forall in Hall.
      apply Hkd, Hall, Hin.
  - intros Hmax. eexists.
    apply (@_get_events_for_range_eq WASTE_FRACTIONS str_lower
        self coordinator data
             start end_ Hdata Hmax).
Qed.

(** X2.  An inverted range (its end before its start) selects nothing: the
    query returns the empty list and does not raise, whatever the
    snapshot holds, a collection on the last date included. *)
Theorem inverted_range_is_empty (self : RenovasjonCalendar)
    (coordinator : Coordinator.t) (start end_ : Date.t) :
  Date.lt end_ start ->
  _get_events_for_range WASTE_FRACTIONS str_lower
      self coordinator start end_ = Ok [].
Proof.
  intros Hinv.
  destruct (Coordinator.data coordinator) as [data |] eqn:Hdata;
    [| apply range_query_no_data; exact Hdata].
  assert (Hnone : selected data start end_ = []).
  { unfold selected.
    induction (RenovasjonData.stored data) as [| kd rest IH];
      [reflexivity |].
    cbn [filter]. rewrite IH.
    destruct (in_range start end_ (snd kd)) eqn:Hin; [| reflexivity].
    exfalso. unfold in_range in Hin. apply andb_true_iff in Hin.
    destruct Hin as [H1 H2].
    pose proof (DateFacts.leb_trans _ _ _ H1 H2) as Hle.
    rewrite (DateFacts.ltb_leb_false _ _ Hinv) in Hle. discriminate Hle. }
  rewrite (@_get_events_for_range_eq WASTE_FRACTIONS str_lower
      self coordinator data
             start end_ Hdata).
  - rewrite Hnone. reflexivity.
  - unfold ends_representable. rewrite Hnone. constructor.
Qed.

(** X3.  The sort is stable: the events of any one day come in the order
    in which their disposals are stored, fraction after fraction in the
    dictionary's order and, inside a fraction, in the order of its list. *)
Theorem same_day_events_keep_stored_order (self : RenovasjonCalendar)
    (coordinator : Coordinator.t) (data : RenovasjonData.t)
    (start end_ : Date.t) :
  Coordinator.data coordinator = Some data ->
  ends_representable data start end_ ->
  exists events,
    _get_events_for_range WASTE_FRACTIONS str_lower self coordinator start end_
    = Ok events /\
    forall day,
      map (fun e => (CalendarEvent.summary e, CalendarEvent.description e))
          (filter (on_day day) events)
      = map (fun kd => (fst kd, WasteDisposal.description (snd kd)))
            (filter (fun kd => Date.eqb (event_date (snd kd)) day)
                    (selected data start end_)).
Proof.
  intros Hdata Hmax. eexists.
  split; [apply (@_get_events_for_range_eq WASTE_FRACTIONS str_lower
      self coordinator
                   data start end_ Hdata Hmax) |].
  intros day. rewrite sort_by_start_on_day, filter_map_comm, map_map.
  reflexivity.
Qed.

(** X4.  Queries compose: a query over a range inside a wider one returns
    exactly the events of the wider query that start within the inner
    range, in the same order. *)
Theorem inner_range_filters_outer (self : RenovasjonCalendar)
    (coordinator : Coordinator.t) (data : RenovasjonData.t)
    (start end_ start' end' : Date.t) :
  Coordinator.data coordinator = Some data ->
  ends_representable data start end_ ->
  Date.le start start' -> Date.le end' end_ ->
  exists outer inner,
    _get_events_for_range WASTE_FRACTIONS str_lower self coordinator start end_
    = Ok outer /\
    _get_events_for_range WASTE_FRACTIONS str_lower self coordinator start' end'
    = Ok inner /\
    inner = filter (starts_within start' end') outer.
Proof.
  intros Hdata Hmax Hs He.
  assert (Hmax' : ends_representable data start' end').
  { unfold ends_representable. rewrite (selected_sub data Hs He).
    apply Forall_filter_keep. exact Hmax. }
  eexists. eexists.
  split; [apply (@_get_events_for_range_eq WASTE_FRACTIONS str_lower
      self coordinator
                   data start end_ Hdata Hmax) |].
  split; [apply (@_get_events_for_range_eq WASTE_FRACTIONS str_lower
      self coordinator
                   data start' end' Hdata Hmax') |].
  rewrite filter_sort_by_start, filter_map_comm.
  rewrite (selected_sub data Hs He). reflexivity.
Qed.

End WithConst.

End CalendarMore.

(** ** Setting up the calendar *)

Module CalendarSetup.

Import Calendar.

(** X5.  The calendar platform does not wait for a first refresh: its
    setup raises [KeyError] when the registry has no coordinator for the
    entry and [AttributeError] when the coordinator has no snapshot yet
    (the device name reads [coordinator.data.address_name]); otherwise it
    adds exactly one calendar, whose unique id is the entry id of the
    coordinator's config entry followed by [_calendar]. *)
Theorem calendar_setup_outcome (hass_data : Registry) (entry : ConfigEntry.t) :
  match PyDict.get hass_data (ConfigEntry.entry_id entry) with
  | None => async_setup_entry hass_data entry = Raise KeyError
  | Some coordinator =>
      match Coordinator.data coordinator with
      | None => async_setup_entry hass_data entry = Raise AttributeError
      | Some data =>
          exists calendar,
            async_setup_entry hass_data entry = Ok [calendar] /\
            _attr_unique_id calendar
            = (ConfigEntry.entry_id (Coordinator.config_entry coordinator)
                 ++ "_calendar")%string /\
            device_name calendar
            = ("Renovasjon " ++ RenovasjonData.address_name data)%string /\
            device_model calendar = RenovasjonData.municipality data
      end
  end.
Proof.
  unfold async_setup_entry, registry_lookup.
  destruct (PyDict.get hass_data (ConfigEntry.entry_id entry))
    as [coordinator |]; [| reflexivity].
  cbn [bind]. unfold __init__.
  destruct (Coordinator.data coordinator) as [data |]; [| reflexivity].
  eexists. repeat split.
Qed.

End CalendarSetup.

(** ** The binary sensors: setup failures, unique ids, translation keys *)

Module BinarySensorMore.

Import BinarySensor BinarySensorFacts.

(** The unique id of the sensor of a fraction. *)
Definition unique_id_of (entry_id fraction : string) : string :=
  (entry_id ++ "_" ++ fraction ++ "_today")%string.

Lemma unique_id_of_inj (entry_id f1 f2 : string) :
  unique_id_of entry_id f1 = unique_id_of entry_id f2 -> f1 = f2.
Proof.
  unfold unique_id_of. intros H.
  apply StrFacts.append_cancel_l in H.
  apply (@StrFacts.append_cancel_l "_" (f1 ++ "_today") (f2 ++ "_today")) in H.
  apply StrFacts.append_cancel_r in H; [apply H | reflexivity].
Qed.

Lemma NoDup_map_injective (A B : Type) (f : A -> B) (l : list A) :
  (forall x y, f x = f y -> x = y) -> NoDup l -> NoDup (map f l).
Proof.
  intros Hinj. induction 1 as [| x l Hnotin Hnodup IH]; cbn [map];
    constructor; [| exact IH].
  intros Hin. apply in_map_iff in Hin. destruct Hin as [y [Heq Hy]].
  apply Hinj in Heq. subst. contradiction.
Qed.

(** Replacing the spaces leaves no space to replace. *)
Lemma replace_space_again (s : string) :
  PyStr.replace " " "_" (PyStr.replace " " "_" s) = PyStr.replace " " "_" s.
Proof.
  induction s as [| c rest IH]; [reflexivity |].
  cbn [PyStr.replace]. rewrite IH.
  destruct (Ascii.eqb c " ") eqn:Hspace; [reflexivity |].
  rewrite Hspace. reflexivity.
Qed.

(** The character of the default translation key of an ASCII name that
    stands for [c]. *)
Definition key_char (c : ascii) : ascii :=
  let lowered := PyStr.ascii_lower_char c in
  if Ascii.eqb lowered " " then "_"%char else lowered.

Lemma key_char_normal (c : ascii) :
  PyStr.ascii_lower_char (key_char c) = key_char c /\
  Nat.ltb (nat_of_ascii (key_char c)) 128 = Nat.ltb (nat_of_ascii c) 128.
Proof.
  destruct c as [b0 b1 b2 b3 b4 b5 b6 b7].
  destruct b0, b1, b2, b3, b4, b5, b6, b7; split; reflexivity.
Qed.

Lemma ascii_key_chars (s : string) :
  let key := PyStr.replace " " "_" (PyStr.ascii_lower s) in
  PyStr.ascii_lower key = key /\
  PyStr.is_ascii key = PyStr.is_ascii s /\
  String.length key = String.length s.
Proof.
  cbn zeta. induction s as [| c rest [IHlower [IHascii IHlength]]];
    [repeat split |].
  cbn [PyStr.ascii_lower PyStr.replace PyStr.is_ascii String.length].
  fold (key_char c).
  destruct (key_char_normal c) as [Hlower Hascii].
  rewrite Hlower, Hascii, IHlower, IHascii, IHlength. repeat split.
Qed.

Section WithConst.

Variable WASTE_FRACTIONS : PyDict.t (PyDict.t string).
Variable str_lower : string -> string.

Lemma __init___attributes (coordinator : Coordinator.t) (fraction : string)
    (self : RenovasjonCollectionTodaySensor) :
  __init__ WASTE_FRACTIONS str_lower coordinator fraction = Ok self ->
  _attr_unique_id self
  = unique_id_of (ConfigEntry.entry_id (Coordinator.config_entry coordinator))
      fraction /\
  _attr_translation_key self
  = (Calendar.translation_key_of WASTE_FRACTIONS str_lower
      fraction ++ "_today")%string.
Proof.
  unfold __init__. destruct (Coordinator.data coordinator); [| discriminate].
  intros H. injection H as <-. split; reflexivity.
Qed.

(** X6.  For a fraction that the table of known fractions does not list,
    the translation key is the fraction's name lower-cased by [str.lower]
    with an underscore for every space: it holds no space, so replacing
    again changes nothing, and the sensor constructed for the fraction
    carries the calendar's key for it followed by [_today].  For a name
    of ASCII characters the key is ASCII too, has the name's length, and
    lower-casing it again changes nothing. *)
Theorem default_translation_key (coordinator : Coordinator.t)
    (fraction : string) (self : RenovasjonCollectionTodaySensor) :
  PyDict.get WASTE_FRACTIONS fraction = None ->
  __init__ WASTE_FRACTIONS str_lower coordinator fraction = Ok self ->
  let key := Calendar.translation_key_of WASTE_FRACTIONS str_lower fraction in
  key = PyStr.replace " " "_" (str_lower fraction) /\
  PyStr.replace " " "_" key = key /\
  _attr_translation_key self = (key ++ "_today")%string /\
  (PyStr.lowers_ascii str_lower ->
   PyStr.is_ascii fraction = true ->
   PyStr.is_ascii key = true /\
   str_lower key = key /\
   String.length key = String.length fraction).
Proof.
  intros Hunknown Hinit. cbn zeta.
  rewrite (@UidFacts.translation_key_unknown WASTE_FRACTIONS str_lower
             fraction Hunknown).
  split; [reflexivity |].
  split; [apply replace_space_again |].
  split.
  - apply __init___attributes in Hinit. destruct Hinit as [_ Hkey].
    rewrite Hkey.
    rewrite (@UidFacts.translation_key_unknown WASTE_FRACTIONS str_lower
               fraction Hunknown).
    reflexivity.
  - intros Hlower Hascii. rewrite (Hlower fraction Hascii).
    destruct (ascii_key_chars fraction) as [Hagain [Hkey_ascii Hlength]].
    rewrite Hascii in Hkey_ascii.
    split; [exact Hkey_ascii |]. split; [| exact Hlength].
    rewrite (Hlower _ Hkey_ascii). exact Hagain.
Qed.

Section WithHost.

Variable async_config_entry_first_refresh :
  Coordinator.t -> result Coordinator.t.

(** X7.  The setup of the binary sensors raises in two cases only: with
    [KeyError] when the registry has no coordinator for the entry, and
    with the exception of the first refresh when that raises.  Once the
    refresh has returned, building the sensors cannot fail. *)
Theorem sensor_setup_raises_iff (hass_data : Registry) (entry : ConfigEntry.t)
    (e : exn) :
  async_setup_entry WASTE_FRACTIONS str_lower async_config_entry_first_refresh
    hass_data entry = Raise e <->
  (PyDict.get hass_data (ConfigEntry.entry_id entry) = None /\ e = KeyError) \/
  (exists coordinator,
     PyDict.get hass_data (ConfigEntry.entry_id entry) = Some coordinator /\
     async_config_entry_first_refresh coordinator = Raise e).
Proof.
  unfold async_setup_entry, registry_lookup.
  destruct (PyDict.get hass_data (ConfigEntry.entry_id entry))
    as [coordinator |]; cbn [bind].
  - destruct (async_config_entry_first_refresh coordinator)
      as [refreshed | e'] eqn:Hrefresh; cbn [bind].
    + split.
      * intros Hrun. exfalso.
        destruct (Coordinator.data refreshed) as [data |] eqn:Hdata;
          [| discriminate Hrun].
        destruct (@create_sensors_ok WASTE_FRACTIONS str_lower refreshed data
                    (RenovasjonData.fractions data) [] Hdata)
          as [created [Hcreated _]].
        rewrite Hcreated in Hrun. discriminate Hrun.
      * intros [[Hnone _] | [c [Hsome Hraise]]]; [discriminate Hnone |].
        injection Hsome as <-. rewrite Hrefresh in Hraise.
        discriminate Hraise.
    + split.
      * intros Hrun. injection Hrun as <-. right.
        exists coordinator. split; [reflexivity | exact Hrefresh].
      * intros [[Hnone _] | [c [Hsome Hraise]]]; [discriminate Hnone |].
        injection Hsome as <-. rewrite Hrefresh in Hraise.
        injection Hraise as <-. reflexivity.
  - split.
    + intros Hrun. injection Hrun as <-. left. split; reflexivity.
    + intros [[_ ->] | [c [Hsome _]]]; [reflexivity | discriminate Hsome].
Qed.

(** X8.  The sensors that one setup adds have pairwise different unique
    ids: each is the entry id, the fraction and [_today] joined by
    underscores, and the fractions are the keys of a dictionary. *)
Theorem sensor_unique_ids_differ (hass_data : Registry) (entry : ConfigEntry.t)
    (refreshed : Coordinator.t) (data : RenovasjonData.t)
    (entities : list RenovasjonCollectionTodaySensor) :
  async_setup_entry WASTE_FRACTIONS str_lower async_config_entry_first_refresh
    hass_data entry = Ok (refreshed, entities) ->
  Coordinator.data refreshed = Some data ->
  PyDict.wf (RenovasjonData.disposals_by_fraction data) ->
  map _attr_unique_id entities
  = map (unique_id_of
           (ConfigEntry.entry_id (Coordinator.config_entry refreshed)))
        (RenovasjonData.fractions data) /\
  NoDup (map _attr_unique_id entities).
Proof.
  intros Hrun Hdata Hwf.
  unfold async_setup_entry in Hrun.
  apply bind_Ok_inv in Hrun. destruct Hrun as [coordinator [_ Hrun]].
  apply bind_Ok_inv in Hrun. destruct Hrun as [refreshed' [_ Hrun]].
  apply bind_Ok_inv in Hrun. destruct Hrun as [entities' [Hcreate Hrun]].
  injection Hrun as -> ->.
  rewrite Hdata in Hcreate.
  destruct (@create_sensors_ok WASTE_FRACTIONS str_lower refreshed data
              (RenovasjonData.fractions data) [] Hdata)
    as [created [Hcreated Hall]].
  rewrite Hcreated in Hcreate. injection Hcreate as <-.
  assert (Hids : map _attr_unique_id created
                 = map (unique_id_of
                          (ConfigEntry.entry_id
                             (Coordinator.config_entry refreshed)))
                       (RenovasjonData.fractions data)).
  { clear - Hall. induction Hall as [| f s fs ss Hinit _ IH];
      [reflexivity |].
    cbn [map]. apply __init___attributes in Hinit.
    destruct Hinit as [Hid _]. rewrite Hid, IH. reflexivity. }
  split; [exact Hids |].
  rewrite Hids. apply NoDup_map_injective; [| exact Hwf].
  intros f1 f2. apply unique_id_of_inj.
Qed.

End WithHost.

End WithConst.

End BinarySensorMore.

(** ** The refresh service: when it raises, and refreshing one by one *)

Module ServiceMore.

Import Service.


Lemma get_app_absent (V : Type) (d1 d2 : PyDict.t V) (k : string) :
  ~ In k (PyDict.keys d1) -> PyDict.get (d1 ++ d2) k = PyDict.get d2 k.
Proof.
  induction d1 as [| [k' v'] rest IH]; cbn [app PyDict.get PyDict.keys map fst];
    intros Habsent; [reflexivity |].
  destruct (String.eqb_spec k' k) as [-> | _].
  - exfalso. apply Habsent. left. reflexivity.
  - apply IH. intros Hin. apply Habsent. right. exact Hin.
Qed.

Lemma set_app_absent (V : Type) (d1 d2 : PyDict.t V) (k : string) (v : V) :
  ~ In k (PyDict.keys d1) ->
  PyDict.set (d1 ++ d2) k v = d1 ++ PyDict.set d2 k v.
Proof.
  induction d1 as [| [k' v'] rest IH]; cbn [app PyDict.set PyDict.keys map fst];
    intros Habsent; [reflexivity |].
  destruct (String.eqb_spec k' k) as [-> | _].
  - exfalso. apply Habsent. left. reflexivity.
  - rewrite IH; [reflexivity |]. intros Hin. apply Habsent. right. exact Hin.
Qed.

(** Calling the service once for each of the given entry ids, in turn. *)
Fixpoint call_each (poll : Coordinator.t -> Coordinator.t)
    (hass_data : Registry) (entry_ids : list string) : result Registry :=
  match entry_ids with
  | [] => Ok hass_data
  | entry_id :: rest =>
      refreshed <- async_refresh_service poll hass_data
                     [("entry_id", entry_id)] ;;
      call_each poll refreshed rest
  end.

Section WithPoll.

Variable poll : Coordinator.t -> Coordinator.t.

Lemma async_refresh_service_one (before after : Registry) (entry_id : string)
    (coordinator : Coordinator.t) :
  entry_id <> EmptyString ->
  ~ In entry_id (PyDict.keys before) ->
  async_refresh_service poll (before ++ (entry_id, coordinator) :: after)
    [("entry_id", entry_id)]
  = Ok (before ++ (entry_id, async_refresh poll coordinator) :: after).
Proof.
  intros Hnonempty Habsent. unfold async_refresh_service.
  cbn [PyDict.get]. rewrite String.eqb_refl.
  destruct entry_id as [| c rest]; [contradiction Hnonempty; reflexivity |].
  cbn [PyStr.truthy]. unfold PyDict.contains, registry_lookup.
  rewrite (@get_app_absent _ before _ _ Habsent). cbn [PyDict.get].
  rewrite String.eqb_refl. cbn [negb bind].
  rewrite (@set_app_absent _ before _ _ _ Habsent). cbn [PyDict.set].
  rewrite String.eqb_refl. reflexivity.
Qed.

Lemma call_each_rest (before todo : Registry) :
  NoDup (PyDict.keys (before ++ todo)) ->
  Forall (fun entry_id => entry_id <> EmptyString) (PyDict.keys todo) ->
  call_each poll (before ++ todo) (PyDict.keys todo)
  = Ok (before ++ refresh_all poll todo).
Proof.
  revert before.
  induction todo as [| [entry_id coordinator] rest IH];
    intros before Hnodup Hnonempty; [reflexivity |].
  cbn [PyDict.keys map fst call_each refresh_all].
  inversion Hnonempty as [| ? ? Hhere Hrest]; subst.
  assert (Habsent : ~ In entry_id (PyDict.keys before)).
  { unfold PyDict.keys in Hnodup |- *. rewrite map_app in Hnodup.
    cbn [map fst] in Hnodup. apply NoDup_remove_2 in Hnodup.
    intros Hin. apply Hnodup, in_or_app. left. exact Hin. }
  rewrite (@async_refresh_service_one before rest entry_id coordinator
             Hhere Habsent), bind_Ok.
  change (before ++ (entry_id, async_refresh poll coordinator) :: rest)
    with (before ++ [(entry_id, async_refresh poll coordinator)] ++ rest).
  rewrite app_assoc, IH.
  - rewrite <- app_assoc. reflexivity.
  - rewrite <- app_assoc. unfold PyDict.keys in *. rewrite map_app in *.
    exact Hnodup.
  - exact Hrest.
Qed.



Section WithTasks.

Variable other_tasks : nat -> Registry -> Registry.


End WithTasks.

(** X10.  Refreshing all is refreshing each: for a registry with no empty
    entry id, calling the service once per registered entry id, in the
    registry's order, ends in the same registry as one call without an
    entry id. *)
Theorem refresh_each_is_refresh_all (hass_data : Registry) :
  PyDict.wf hass_data ->
  Forall (fun entry_id => entry_id <> EmptyString) (PyDict.keys hass_data) ->
  call_each poll hass_data (PyDict.keys hass_data)
  = async_refresh_service poll hass_data [].
Proof.
  intros Hwf Hnonempty.
  apply (@call_each_rest [] hass_data Hwf Hnonempty).
Qed.

End WithPoll.

End ServiceMore.

(** ** __init__.py: setting up and unloading a config entry *)

(** More dictionary operations. *)
Module PyDictOps.

Section Ops.
Variable V : Type.

(** [d[k]] *)
Definition lookup (d : PyDict.t V) (k : string) : result V :=
  match PyDict.get d k with
  | Some v => Ok v
  | None => Raise KeyError
  end.

(** The entries that stay when [k] goes. *)
Fixpoint remove (d : PyDict.t V) (k : string) : PyDict.t V :=
  match d with
  | [] => []
  | (k', v') :: rest =>
      if String.eqb k' k then rest else (k', v') :: remove rest k
  end.

(** [d.pop(k)]: the value and the dictionary without the key; it raises
    when the key is missing. *)
Definition pop (d : PyDict.t V) (k : string) : result (V * PyDict.t V) :=
  match PyDict.get d k with
  | Some v => Ok (v, remove d k)
  | None => Raise KeyError
  end.

(** [d.setdefault(k, default)] (the dictionary afterwards). *)
Definition setdefault (d : PyDict.t V) (k : string) (default : V)
  : PyDict.t V :=
  match PyDict.get d k with
  | Some _ => d
  | None => PyDict.set d k default
  end.

(** Truthiness of a dictionary: the empty one is falsy. *)
Definition truthy (d : PyDict.t V) : bool :=
  match d with
  | [] => false
  | _ :: _ => true
  end.

End Ops.

End PyDictOps.

Module Lifecycle.

(** const.py is not among the sources; the tests pin the domain down (the
    device identifiers are [("remidt_renovasjon", entry_id)]). *)
Definition DOMAIN : string := "remidt_renovasjon".

Definition SERVICE_REFRESH : string := "refresh".

Inductive Platform : Type := SENSOR | CALENDAR | BINARY_SENSOR.

Definition PLATFORMS : list Platform := [SENSOR; CALENDAR; BINARY_SENSOR].

(** The host as the integration touches it: [hass.data] (the registries by
    domain), the registered services as (domain, service) pairs, and the
    entries that carry the options listener. *)
Record Hass : Type := make {
  data : PyDict.t Registry;
  services : list (string * string);
  update_listeners : list string
}.

Definition with_data (hass : Hass) (data' : PyDict.t Registry) : Hass :=
  make data' (services hass) (update_listeners hass).

Definition with_services (hass : Hass) (services' : list (string * string))
  : Hass :=
  make (data hass) services' (update_listeners hass).

Definition same_service (domain service : string) (ds : string * string)
  : bool :=
  (String.eqb (fst ds) domain && String.eqb (snd ds) service)%bool.

(** [hass.services.has_service(domain, service)] *)
Definition has_service (hass : Hass) (domain service : string) : bool :=
  existsb (same_service domain service) (services hass).

(** [hass.services.async_register]: a service registered again keeps its
    one place. *)
Definition async_register (hass : Hass) (domain service : string) : Hass :=
  if has_service hass domain service then hass
  else with_services hass (services hass ++ [(domain, service)]).

(** [hass.services.async_remove] *)
Definition async_remove (hass : Hass) (domain service : string) : Hass :=
  with_services hass
    (filter (fun ds => negb (same_service domain service ds)) (services hass)).

(** [entry.async_on_unload(entry.add_update_listener(...))] *)
Definition add_update_listener (hass : Hass) (entry : ConfigEntry.t) : Hass :=
  make (data hass) (services hass)
    (update_listeners hass ++ [ConfigEntry.entry_id entry]).

Section WithHost.

(** The constructor of the coordinator (coordinator.py) and the host's
    forwarding of an entry to its platforms, which may raise and which
    runs the platforms' setups, are parameters; so are the host's
    unloading of the platforms and the coordinator's reading of the
    options. *)
Variable RenovasjonCoordinator : Hass -> ConfigEntry.t -> Coordinator.t.
Variable async_forward_entry_setups :
  Hass -> ConfigEntry.t -> list Platform -> result Hass.
Variable async_unload_platforms :
  Hass -> ConfigEntry.t -> list Platform -> result (Hass * bool).
Variable update_interval_from_options : Coordinator.t -> Coordinator.t.

Definition async_setup_entry (hass : Hass) (entry : ConfigEntry.t)
  : result (Hass * bool) :=
  let coordinator := RenovasjonCoordinator hass entry in
  let hass := with_data hass (PyDictOps.setdefault (data hass) DOMAIN []) in
  registry <- PyDictOps.lookup (data hass) DOMAIN ;;
  let hass :=
    with_data hass
      (PyDict.set (data hass) DOMAIN
         (PyDict.set registry (ConfigEntry.entry_id entry) coordinator)) in
  let hass := add_update_listener hass entry in
  hass <- async_forward_entry_setups hass entry PLATFORMS ;;
  let hass :=
    if negb (has_service hass DOMAIN SERVICE_REFRESH)
    then async_register hass DOMAIN SERVICE_REFRESH
    else hass in
  Ok (hass, true).

Definition async_options_updated (hass : Hass) (entry : ConfigEntry.t)
  : result Hass :=
  registry <- PyDictOps.lookup (data hass) DOMAIN ;;
  coordinator <- PyDictOps.lookup registry (ConfigEntry.entry_id entry) ;;
  Ok (with_data hass
        (PyDict.set (data hass) DOMAIN
           (PyDict.set registry (ConfigEntry.entry_id entry)
              (update_interval_from_options coordinator)))).

Definition async_unload_entry (hass : Hass) (entry : ConfigEntry.t)
  : result (Hass * bool) :=
  unloaded <- async_unload_platforms hass entry PLATFORMS ;;
  let hass := fst unloaded in
  let unload_ok := snd unloaded in
  if unload_ok then
    registry <- PyDictOps.lookup (data hass) DOMAIN ;;
    popped <- PyDictOps.pop registry (ConfigEntry.entry_id entry) ;;
    let hass := with_data hass (PyDict.set (data hass) DOMAIN (snd popped)) in
    registry <- PyDictOps.lookup (data hass) DOMAIN ;;
    let hass :=
      if negb (PyDictOps.truthy registry)
      then async_remove hass DOMAIN SERVICE_REFRESH
      else hass in
    Ok (hass, unload_ok)
  else Ok (hass, unload_ok).

End WithHost.

(** The entry ids that have a coordinator in the registry. *)
Definition registered (hass : Hass) : list string :=
  PyDict.keys (PyDict.get_default (data hass) DOMAIN []).

(** What a call into the host leaves alone: whether the domain has a
    registry, which entry ids it holds, and whether the refresh service is
    registered. *)
Definition host_keeps (before after : Hass) : Prop :=
  PyDict.contains (data after) DOMAIN = PyDict.contains (data before) DOMAIN /\
  registered after = registered before /\
  has_service after DOMAIN SERVICE_REFRESH
  = has_service before DOMAIN SERVICE_REFRESH.

(** The refresh service is registered exactly while some entry is. *)
Definition service_tracks_entries (hass : Hass) : Prop :=
  has_service hass DOMAIN SERVICE_REFRESH
  = match registered hass with
    | [] => false
    | _ :: _ => true
    end.

End Lifecycle.

Module LifecycleFacts.

Import Lifecycle.

Lemma contains_keys (V : Type) (d : PyDict.t V) (k : string) :
  PyDict.contains d k = true <-> In k (PyDict.keys d).
Proof.
  unfold PyDict.contains.
  pose proof (PyDictFacts.get_None_keys d k) as Hnone.
  destruct (PyDict.get d k) as [v |].
  - split; [intros _ | reflexivity].
    destruct (in_dec string_dec k (PyDict.keys d)) as [Hin | Hnotin];
      [exact Hin |].
    apply Hnone in Hnotin. discriminate Hnotin.
  - split; [discriminate |]. intros Hin. exfalso.
    apply (proj1 Hnone eq_refl). exact Hin.
Qed.

Lemma keys_set (V : Type) (d : PyDict.t V) (k : string) (v : V) :
  PyDict.keys (PyDict.set d k v)
  = if PyDict.contains d k then PyDict.keys d else PyDict.keys d ++ [k].
Proof.
  unfold PyDict.contains.
  induction d as [| [k' v'] rest IH]; [reflexivity |].
  cbn [PyDict.set PyDict.get].
  destruct (String.eqb_spec k' k) as [-> | _]; [reflexivity |].
  change (PyDict.keys ((k', v') :: PyDict.set rest k v))
    with (k' :: PyDict.keys (PyDict.set rest k v)).
  rewrite IH. destruct (PyDict.get rest k); reflexivity.
Qed.

Lemma remove_set_absent (V : Type) (d : PyDict.t V) (k : string) (v : V) :
  PyDict.get d k = None -> PyDictOps.remove (PyDict.set d k v) k = d.
Proof.
  induction d as [| [k' v'] rest IH]; cbn [PyDict.get PyDict.set].
  - intros _. cbn [PyDictOps.remove]. rewrite String.eqb_refl. reflexivity.
  - destruct (String.eqb k' k) eqn:Heq; [discriminate |].
    intros Hnone. cbn [PyDictOps.remove]. rewrite Heq, IH by exact Hnone.
    reflexivity.
Qed.

Lemma In_keys_remove (V : Type) (d : PyDict.t V) (k k' : string) :
  PyDict.wf d ->
  (In k' (PyDict.keys (PyDictOps.remove d k)) <->
   In k' (PyDict.keys d) /\ k' <> k).
Proof.
  unfold PyDict.wf.
  induction d as [| [k0 v0] rest IH]; cbn [PyDictOps.remove PyDict.keys map fst];
    intros Hwf.
  - simpl. tauto.
  - inversion Hwf as [| ? ? Hnotin Hrest]; subst.
    destruct (String.eqb_spec k0 k) as [-> | Hne].
    + split.
      * intros Hin. split; [right; exact Hin |].
        intros ->. contradiction.
      * intros [[-> | Hin] Hother]; [contradiction Hother; reflexivity |].
        exact Hin.
    + cbn [PyDict.keys map fst In]. fold (PyDict.keys rest).
      fold (PyDict.keys (PyDictOps.remove rest k)).
      rewrite (IH Hrest). intuition congruence.
Qed.

Lemma lookup_setdefault (V : Type) (d : PyDict.t V) (k : string) (v : V) :
  PyDictOps.lookup (PyDictOps.setdefault d k v) k
  = Ok (PyDict.get_default d k v).
Proof.
  unfold PyDictOps.lookup, PyDictOps.setdefault, PyDict.get_default.
  destruct (PyDict.get d k) as [v' |] eqn:Hget.
  - rewrite Hget. reflexivity.
  - rewrite PyDictFacts.get_set_same. reflexivity.
Qed.

Lemma set_setdefault (V : Type) (d : PyDict.t V) (k : string) (v v' : V) :
  PyDict.get (PyDict.set (PyDictOps.setdefault d k v) k v') k = Some v'.
Proof. apply PyDictFacts.get_set_same. Qed.

Lemma has_service_register (hass : Hass) (domain service : string) :
  has_service (async_register hass domain service) domain service = true.
Proof.
  unfold async_register.
  destruct (has_service hass domain service) eqn:Hhas; [exact Hhas |].
  unfold has_service, with_services. cbn [services].
  rewrite existsb_app. cbn [existsb]. unfold same_service at 2. cbn [fst snd].
  rewrite !String.eqb_refl. apply orb_true_iff. right. reflexivity.
Qed.

Lemma has_service_remove (hass : Hass) (domain service : string) :
  has_service (async_remove hass domain service) domain service = false.
Proof.
  unfold has_service, async_remove, with_services. cbn [services].
  induction (services hass) as [| ds rest IH]; [reflexivity |].
  cbn [filter]. destruct (same_service domain service ds) eqn:Hsame;
    cbn [negb]; [exact IH |].
  cbn [existsb]. rewrite Hsame, IH. reflexivity.
Qed.

(** A list of entry ids without the first occurrence of one of them. *)
Fixpoint drop_first (entry_id : string) (ids : list string) : list string :=
  match ids with
  | [] => []
  | id :: rest =>
      if String.eqb id entry_id then rest else id :: drop_first entry_id rest
  end.

Lemma keys_remove (V : Type) (d : PyDict.t V) (k : string) :
  PyDict.keys (PyDictOps.remove d k) = drop_first k (PyDict.keys d).
Proof.
  induction d as [| [k' v'] rest IH]; [reflexivity |].
  cbn [PyDictOps.remove PyDict.keys map fst drop_first].
  destruct (String.eqb k' k); [reflexivity |].
  cbn [map fst]. f_equal. exact IH.
Qed.

Lemma drop_first_last (entry_id : string) (ids : list string) :
  ~ In entry_id ids -> drop_first entry_id (ids ++ [entry_id]) = ids.
Proof.
  induction ids as [| id rest IH]; cbn [app drop_first]; intros Habsent.
  - rewrite String.eqb_refl. reflexivity.
  - destruct (String.eqb_spec id entry_id) as [-> | _].
    + exfalso. apply Habsent. left. reflexivity.
    + rewrite IH; [reflexivity |]. intros Hin. apply Habsent. right. exact Hin.
Qed.

Lemma drop_first_In (entry_id other : string) (ids : list string) :
  NoDup ids ->
  (In other (drop_first entry_id ids) <-> In other ids /\ other <> entry_id).
Proof.
  induction 1 as [| id rest Hnotin Hnodup IH]; cbn [drop_first].
  - simpl. tauto.
  - destruct (String.eqb_spec id entry_id) as [-> | Hne].
    + split.
      * intros Hin. split; [right; exact Hin |]. intros ->. contradiction.
      * intros [[-> | Hin] Hother]; [contradiction Hother; reflexivity |].
        exact Hin.
    + cbn [In]. rewrite IH. intuition congruence.
Qed.

(** Whether the registry has a coordinator under an entry id. *)
Definition is_registered (hass : Hass) (entry_id : string) : bool :=
  PyDict.contains (PyDict.get_default (data hass) DOMAIN []) entry_id.

Lemma is_registered_In (hass : Hass) (entry_id : string) :
  is_registered hass entry_id = true <-> In entry_id (registered hass).
Proof. apply contains_keys. Qed.

Section WithHost.

Variable RenovasjonCoordinator : Hass -> ConfigEntry.t -> Coordinator.t.
Variable async_forward_entry_setups :
  Hass -> ConfigEntry.t -> list Platform -> result Hass.
Variable async_unload_platforms :
  Hass -> ConfigEntry.t -> list Platform -> result (Hass * bool).
Variable update_interval_from_options : Coordinator.t -> Coordinator.t.

(** The host's calls leave the registry's entry ids and the refresh
    service alone (the platforms they run only refresh coordinators and
    add or drop entities). *)
Hypothesis forward_keeps :
  forall hass entry platforms hass',
    async_forward_entry_setups hass entry platforms = Ok hass' ->
    host_keeps hass hass'.
Hypothesis unload_keeps :
  forall hass entry platforms hass' unload_ok,
    async_unload_platforms hass entry platforms = Ok (hass', unload_ok) ->
    host_keeps hass hass'.

(** What a setup does, by its outcome. *)
Lemma setup_entry_spec (hass : Hass) (entry : ConfigEntry.t) :
  match
    async_setup_entry RenovasjonCoordinator async_forward_entry_setups
      hass entry
  with
  | Ok (after, ok) =>
      ok = true /\
      has_service after DOMAIN SERVICE_REFRESH = true /\
      In (ConfigEntry.entry_id entry) (registered after) /\
      registered after
      = (if is_registered hass (ConfigEntry.entry_id entry)
         then registered hass
         else registered hass ++ [ConfigEntry.entry_id entry]) /\
      service_tracks_entries after
  | Raise e =>
      exists handed,
        async_forward_entry_setups handed entry PLATFORMS = Raise e
  end.
Proof.
  unfold async_setup_entry. cbn zeta. cbn [data with_data].
  rewrite lookup_setdefault, bind_Ok.
  match goal with
  | |- context [async_forward_entry_setups ?h entry PLATFORMS] =>
      set (handed := h)
  end.
  destruct (async_forward_entry_setups handed entry PLATFORMS)
    as [forwarded |] eqn:Hforward; cbn [bind];
    [| exists handed; exact Hforward].
  destruct (forward_keeps Hforward) as [_ [Hids Hservice]].
  assert (Hhanded :
            registered handed
            = if is_registered hass (ConfigEntry.entry_id entry)
              then registered hass
              else registered hass ++ [ConfigEntry.entry_id entry]).
  { unfold registered, handed, is_registered, add_update_listener.
    cbn [data with_data]. unfold PyDict.get_default at 1.
    rewrite set_setdefault. apply keys_set. }
  assert (Hafter :
            forall after,
              registered after = registered forwarded ->
              has_service after DOMAIN SERVICE_REFRESH = true ->
              has_service after DOMAIN SERVICE_REFRESH = true /\
              In (ConfigEntry.entry_id entry) (registered after) /\
              registered after
              = (if is_registered hass (ConfigEntry.entry_id entry)
                 then registered hass
                 else registered hass ++ [ConfigEntry.entry_id entry]) /\
              service_tracks_entries after).
  { intros after Hsame Hhas. rewrite Hsame, Hids, Hhanded.
    assert (Hin : In (ConfigEntry.entry_id entry)
                     (if is_registered hass (ConfigEntry.entry_id entry)
                      then registered hass
                      else registered hass ++ [ConfigEntry.entry_id entry])).
    { destruct (is_registered hass (ConfigEntry.entry_id entry)) eqn:Hreg.
      - apply is_registered_In. exact Hreg.
      - apply in_or_app. right. left. reflexivity. }
    split; [exact Hhas |]. split; [exact Hin |]. split; [reflexivity |].
    unfold service_tracks_entries. rewrite Hsame, Hids, Hhanded, Hhas.
    destruct (if is_registered hass (ConfigEntry.entry_id entry)
              then registered hass
              else registered hass ++ [ConfigEntry.entry_id entry]);
      [destruct Hin | reflexivity]. }
  destruct (has_service forwarded DOMAIN SERVICE_REFRESH) eqn:Hhas;
    cbn [negb]; (split; [reflexivity |]); apply Hafter.
  - reflexivity.
  - exact Hhas.
  - unfold async_register. rewrite Hhas. reflexivity.
  - apply has_service_register.
Qed.

Lemma registered_get (hass : Hass) (entry_id : string) :
  is_registered hass entry_id = true ->
  exists registry coordinator,
    PyDict.get (data hass) DOMAIN = Some registry /\
    PyDict.get registry entry_id = Some coordinator /\
    registered hass = PyDict.keys registry.
Proof.
  unfold is_registered, registered, PyDict.get_default, PyDict.contains.
  destruct (PyDict.get (data hass) DOMAIN) as [registry |];
    [| discriminate].
  destruct (PyDict.get registry entry_id) as [coordinator |] eqn:Hget;
    [| discriminate].
  intros _. exists registry, coordinator. repeat split. exact Hget.
Qed.

(** The entry's coordinator leaves the registry; the service goes with
    the last one. *)
Lemma unload_entry_pops (hass unloaded : Hass) (entry : ConfigEntry.t) :
  async_unload_platforms hass entry PLATFORMS = Ok (unloaded, true) ->
  is_registered unloaded (ConfigEntry.entry_id entry) = true ->
  exists after,
    async_unload_entry async_unload_platforms hass entry = Ok (after, true) /\
    registered after
    = drop_first (ConfigEntry.entry_id entry) (registered unloaded) /\
    has_service after DOMAIN SERVICE_REFRESH
    = match registered after with
      | [] => false
      | _ :: _ => has_service unloaded DOMAIN SERVICE_REFRESH
      end.
Proof.
  intros Hhost Hreg.
  destruct (registered_get _ _ Hreg)
    as [registry [coordinator [Hdomain [Hentry Hids]]]].
  unfold async_unload_entry. rewrite Hhost, bind_Ok. cbn [fst snd].
  unfold PyDictOps.lookup at 1. rewrite Hdomain, bind_Ok.
  unfold PyDictOps.pop. rewrite Hentry, bind_Ok. cbn [snd data with_data].
  unfold PyDictOps.lookup. rewrite PyDictFacts.get_set_same, bind_Ok.
  assert (Hafter : forall after,
            data after
            = PyDict.set (data unloaded) DOMAIN
                (PyDictOps.remove registry (ConfigEntry.entry_id entry)) ->
            registered after
            = drop_first (ConfigEntry.entry_id entry) (registered unloaded)).
  { intros after Hdata. unfold registered at 1, PyDict.get_default.
    rewrite Hdata, PyDictFacts.get_set_same, keys_remove, Hids.
    reflexivity. }
  assert (Hkeys : drop_first (ConfigEntry.entry_id entry) (registered unloaded)
                  = PyDict.keys
                      (PyDictOps.remove registry (ConfigEntry.entry_id entry)))
    by (rewrite Hids, keys_remove; reflexivity).
  eexists. split; [reflexivity |].
  destruct (PyDictOps.remove registry (ConfigEntry.entry_id entry))
    as [| kept rest]; cbn [PyDictOps.truthy negb].
  - split; [apply Hafter; reflexivity |].
    rewrite (Hafter (async_remove
                       (with_data unloaded
                          (PyDict.set (data unloaded) DOMAIN []))
                       DOMAIN SERVICE_REFRESH) eq_refl).
    rewrite Hkeys. cbn [PyDict.keys map]. apply has_service_remove.
  - split; [apply Hafter; reflexivity |].
    rewrite (Hafter (with_data unloaded
                       (PyDict.set (data unloaded) DOMAIN (kept :: rest)))
               eq_refl).
    rewrite Hkeys. reflexivity.
Qed.

Lemma unload_entry_missing (hass unloaded : Hass) (entry : ConfigEntry.t) :
  async_unload_platforms hass entry PLATFORMS = Ok (unloaded, true) ->
  is_registered unloaded (ConfigEntry.entry_id entry) = false ->
  async_unload_entry async_unload_platforms hass entry = Raise KeyError.
Proof.
  intros Hhost Hreg. unfold async_unload_entry.
  rewrite Hhost, bind_Ok. cbn [fst snd].
  unfold is_registered, PyDict.get_default, PyDict.contains in Hreg.
  unfold PyDictOps.lookup at 1.
  destruct (PyDict.get (data unloaded) DOMAIN) as [registry |];
    [| reflexivity].
  rewrite bind_Ok. unfold PyDictOps.pop.
  destruct (PyDict.get registry (ConfigEntry.entry_id entry));
    [discriminate Hreg | reflexivity].
Qed.

Lemma is_registered_same (before after : Hass) (entry_id : string) :
  registered after = registered before ->
  is_registered after entry_id = is_registered before entry_id.
Proof.
  intros Hsame.
  destruct (is_registered before entry_id) eqn:Hbefore.
  - apply is_registered_In. rewrite Hsame. apply is_registered_In, Hbefore.
  - apply not_true_iff_false. intros Hafter.
    apply is_registered_In in Hafter. rewrite Hsame in Hafter.
    apply is_registered_In in Hafter. congruence.
Qed.

(** X12.  Unloading an entry whose platforms did not unload changes
    nothing more and returns [False].  When they did unload, an entry
    without a coordinator in the registry makes the unload raise
    [KeyError]; otherwise the entry's coordinator leaves the registry, the
    other entries stay, and the refresh service is removed exactly when no
    entry is left. *)
Theorem unload_outcome (hass unloaded : Hass) (entry : ConfigEntry.t)
    (unload_ok : bool) :
  async_unload_platforms hass entry PLATFORMS = Ok (unloaded, unload_ok) ->
  if unload_ok then
    if is_registered hass (ConfigEntry.entry_id entry) then
      exists after,
        async_unload_entry async_unload_platforms hass entry
        = Ok (after, true) /\
        registered after
        = drop_first (ConfigEntry.entry_id entry) (registered hass) /\
        has_service after DOMAIN SERVICE_REFRESH
        = match registered after with
          | [] => false
          | _ :: _ => has_service hass DOMAIN SERVICE_REFRESH
          end /\
        (service_tracks_entries hass -> service_tracks_entries after)
    else
      async_unload_entry async_unload_platforms hass entry = Raise KeyError
  else
    async_unload_entry async_unload_platforms hass entry
    = Ok (unloaded, false).
Proof.
  intros Hhost.
  destruct unload_ok;
    [| unfold async_unload_entry; rewrite Hhost; reflexivity].
  destruct (unload_keeps Hhost) as [_ [Hids Hservice]].
  rewrite <- (is_registered_same _ _ (ConfigEntry.entry_id entry) Hids).
  destruct (is_registered unloaded (ConfigEntry.entry_id entry)) eqn:Hreg;
    [| apply (unload_entry_missing Hhost Hreg)].
  destruct (unload_entry_pops Hhost Hreg) as [after [Hrun [Hafter Hhas]]].
  exists after. rewrite <- Hids, <- Hservice.
  split; [exact Hrun |]. split; [exact Hafter |]. split; [exact Hhas |].
  unfold service_tracks_entries. intros Htracks. rewrite Hhas.
  destruct (registered after) as [| id rest] eqn:Hleft; [reflexivity |].
  rewrite Hservice, Htracks.
  apply is_registered_In in Hreg. rewrite Hids in Hreg.
  destruct (registered hass); [destruct Hreg | reflexivity].
Qed.

(** X11.  Setting up an entry raises only when forwarding the entry to
    the platforms raises.  When it returns, it returns [True], the entry
    has a coordinator in the registry (a new entry id goes last, a known
    one keeps its place), and the refresh service is registered. *)
Theorem setup_registers (hass : Hass) (entry : ConfigEntry.t) :
  (forall e,
     async_setup_entry RenovasjonCoordinator async_forward_entry_setups
       hass entry = Raise e ->
     exists handed,
       async_forward_entry_setups handed entry PLATFORMS = Raise e) /\
  (forall after ok,
     async_setup_entry RenovasjonCoordinator async_forward_entry_setups
       hass entry = Ok (after, ok) ->
     ok = true /\
     has_service after DOMAIN SERVICE_REFRESH = true /\
     registered after
     = (if is_registered hass (ConfigEntry.entry_id entry)
        then registered hass
        else registered hass ++ [ConfigEntry.entry_id entry]) /\
     In (ConfigEntry.entry_id entry) (registered after) /\
     service_tracks_entries after).
Proof.
  pose proof (setup_entry_spec hass entry) as Hspec.
  destruct (async_setup_entry RenovasjonCoordinator async_forward_entry_setups
              hass entry) as [[after' ok'] | e'].
  - split; [discriminate |].
    intros after ok H. injection H as <- <-.
    destruct Hspec as [Hok [Hhas [Hin [Hids Htracks]]]].
    repeat split; assumption.
  - split; [| discriminate].
    intros e H. injection H as <-. exact Hspec.
Qed.

(** X13.  Setting up an entry that the registry does not hold and then
    unloading it brings the registry back to the entry ids it had, and
    leaves the refresh service registered exactly when some entry is
    left. *)
Theorem setup_then_unload (hass set_up unloaded : Hass)
    (entry : ConfigEntry.t) :
  ~ In (ConfigEntry.entry_id entry) (registered hass) ->
  async_setup_entry RenovasjonCoordinator async_forward_entry_setups
    hass entry = Ok (set_up, true) ->
  async_unload_platforms set_up entry PLATFORMS = Ok (unloaded, true) ->
  exists after,
    async_unload_entry async_unload_platforms set_up entry
    = Ok (after, true) /\
    registered after = registered hass /\
    service_tracks_entries after.
Proof.
  intros Hnew Hsetup Hhost.
  pose proof (setup_entry_spec hass entry) as Hspec.
  rewrite Hsetup in Hspec.
  destruct Hspec as [_ [Hhas [Hin [Hids _]]]].
  assert (Hunregistered : is_registered hass (ConfigEntry.entry_id entry)
                          = false).
  { apply not_true_iff_false. intros Hreg. apply Hnew.
    apply is_registered_In. exact Hreg. }
  rewrite Hunregistered in Hids.
  destruct (unload_keeps Hhost) as [_ [Hsame Hservice]].
  assert (Hreg : is_registered unloaded (ConfigEntry.entry_id entry) = true).
  { apply is_registered_In. rewrite Hsame. exact Hin. }
  destruct (unload_entry_pops Hhost Hreg) as [after [Hrun [Hafter Hleft]]].
  exists after. split; [exact Hrun |].
  assert (Hback : registered after = registered hass).
  { rewrite Hafter, Hsame, Hids. apply drop_first_last. exact Hnew. }
  split; [exact Hback |].
  unfold service_tracks_entries. rewrite Hleft.
  destruct (registered after); [reflexivity |].
  rewrite Hservice. exact Hhas.
Qed.

(** The registry of the integration; empty when the domain has none. *)
Definition registry_of (hass : Hass) : Registry :=
  PyDict.get_default (data hass) DOMAIN [].

(** X14.  An options update for an entry without a coordinator in the
    registry raises [KeyError].  Otherwise it re-reads the interval on the
    entry's coordinator and on no other: the other coordinators, the
    entry ids and their order, and the services stay as they were. *)
Theorem options_update_outcome (hass : Hass) (entry : ConfigEntry.t) :
  match PyDict.get (registry_of hass) (ConfigEntry.entry_id entry) with
  | None =>
      async_options_updated update_interval_from_options hass entry
      = Raise KeyError
  | Some coordinator =>
      exists after,
        async_options_updated update_interval_from_options hass entry
        = Ok after /\
        PyDict.get (registry_of after) (ConfigEntry.entry_id entry)
        = Some (update_interval_from_options coordinator) /\
        (forall other,
           other <> ConfigEntry.entry_id entry ->
           PyDict.get (registry_of after) other
           = PyDict.get (registry_of hass) other) /\
        registered after = registered hass /\
        services after = services hass
  end.
Proof.
  unfold async_options_updated, registry_of, registered, PyDict.get_default,
    PyDictOps.lookup.
  destruct (PyDict.get (data hass) DOMAIN) as [registry |] eqn:Hdomain;
    cbn [bind PyDict.get]; [| reflexivity].
  destruct (PyDict.get registry (ConfigEntry.entry_id entry))
    as [coordinator |] eqn:Hentry; cbn [bind]; [| reflexivity].
  eexists. split; [reflexivity |].
  cbn [data with_data services]. rewrite PyDictFacts.get_set_same.
  split; [apply PyDictFacts.get_set_same |].
  split; [intros other Hother; apply PyDictFacts.get_set_other; exact Hother |].
  split; [| reflexivity].
  eapply ServiceFacts.keys_set_present. exact Hentry.
Qed.

End WithHost.

End LifecycleFacts.

(** ** The further properties on the example data *)

Module MoreExamples.

Import Lifecycle.

(** X1 on the example snapshot. *)
Lemma range_query_returns_iff_witness :
  Coordinator.data Examples.coordinator = Some Examples.snapshot /\
  ((exists events,
      Calendar._get_events_for_range Examples.table PyStr.ascii_lower
          Examples.calendar
        Examples.coordinator Examples.today Examples.tomorrow = Ok events) <->
   CalendarFacts.ends_representable Examples.snapshot Examples.today
     Examples.tomorrow) /\
  (~ CalendarFacts.ends_representable Examples.snapshot Examples.today
       Examples.tomorrow ->
   Calendar._get_events_for_range Examples.table PyStr.ascii_lower
       Examples.calendar
     Examples.coordinator Examples.today Examples.tomorrow
   = Raise OverflowError).
Proof.
  split; [reflexivity |].
  apply (@CalendarMore.range_query_returns_iff Examples.table PyStr.ascii_lower
           Examples.calendar Examples.coordinator Examples.snapshot
           Examples.today Examples.tomorrow eq_refl).
Defined.

(** X2 on a snapshot with a collection on the last date. *)
Lemma inverted_range_is_empty_witness :
  Date.lt (Date.make 9999 12 30) Date.max /\
  Calendar._get_events_for_range Examples.table PyStr.ascii_lower
      Examples.calendar
    (Examples.coordinator_of (Some Examples.last_day_snapshot))
    Date.max (Date.make 9999 12 30) = Ok [].
Proof.
  split; [reflexivity |].
  apply (@CalendarMore.inverted_range_is_empty Examples.table PyStr.ascii_lower
           Examples.calendar
           (Examples.coordinator_of (Some Examples.last_day_snapshot))
           Date.max (Date.make 9999 12 30) eq_refl).
Defined.

(** X3 on the example snapshot: tomorrow Restavfall comes before
    Matavfall. *)
Lemma same_day_events_witness :
  Coordinator.data Examples.coordinator = Some Examples.snapshot /\
  CalendarFacts.ends_representable Examples.snapshot Examples.today
    Examples.tomorrow /\
  exists events,
    Calendar._get_events_for_range Examples.table PyStr.ascii_lower
        Examples.calendar
      Examples.coordinator Examples.today Examples.tomorrow = Ok events /\
    forall day,
      map (fun e => (CalendarEvent.summary e, CalendarEvent.description e))
          (filter (CalendarMore.on_day day) events)
      = map (fun kd => (fst kd, WasteDisposal.description (snd kd)))
            (filter (fun kd =>
                       Date.eqb (CalendarFacts.event_date (snd kd)) day)
                    (CalendarFacts.selected Examples.snapshot Examples.today
                       Examples.tomorrow)).
Proof.
  assert (Hmax : CalendarFacts.ends_representable Examples.snapshot
                   Examples.today Examples.tomorrow)
    by (repeat constructor).
  split; [reflexivity |]. split; [exact Hmax |].
  apply (@CalendarMore.same_day_events_keep_stored_order Examples.table PyStr.ascii_lower
           Examples.calendar Examples.coordinator Examples.snapshot
           Examples.today Examples.tomorrow eq_refl Hmax).
Defined.

(** X4 on the example snapshot: tomorrow alone inside today and
    tomorrow. *)
Lemma inner_range_witness :
  Coordinator.data Examples.coordinator = Some Examples.snapshot /\
  CalendarFacts.ends_representable Examples.snapshot Examples.today
    Examples.tomorrow /\
  Date.le Examples.today Examples.tomorrow /\
  Date.le Examples.tomorrow Examples.tomorrow /\
  exists outer inner,
    Calendar._get_events_for_range Examples.table PyStr.ascii_lower
        Examples.calendar
      Examples.coordinator Examples.today Examples.tomorrow = Ok outer /\
    Calendar._get_events_for_range Examples.table PyStr.ascii_lower
        Examples.calendar
      Examples.coordinator Examples.tomorrow Examples.tomorrow = Ok inner /\
    inner
    = filter (CalendarMore.starts_within Examples.tomorrow Examples.tomorrow)
             outer.
Proof.
  assert (Hmax : CalendarFacts.ends_representable Examples.snapshot
                   Examples.today Examples.tomorrow)
    by (repeat constructor).
  split; [reflexivity |]. split; [exact Hmax |].
  split; [reflexivity |]. split; [reflexivity |].
  apply (@CalendarMore.inner_range_filters_outer Examples.table PyStr.ascii_lower
           Examples.calendar Examples.coordinator Examples.snapshot
           Examples.today Examples.tomorrow Examples.tomorrow
           Examples.tomorrow eq_refl Hmax eq_refl eq_refl).
Defined.

Definition glass_sensor : BinarySensor.RenovasjonCollectionTodaySensor :=
  BinarySensor.make "Glass og metall" "mdi:calendar-check"
    "test_entry_id_Glass og metall_today" "glass_og_metall_today"
    "Glass og metall today" "Renovasjon Test Street 1" "Test Municipality".

(** X6 at a fraction the example table does not list. *)
Lemma default_translation_key_witness :
  PyDict.get Examples.table "Glass og metall" = None /\
  BinarySensor.__init__ Examples.table PyStr.ascii_lower Examples.coordinator
    "Glass og metall"
  = Ok glass_sensor /\
  let key :=
    Calendar.translation_key_of Examples.table PyStr.ascii_lower
      "Glass og metall" in
  key = PyStr.replace " " "_" (PyStr.ascii_lower "Glass og metall") /\
  PyStr.replace " " "_" key = key /\
  BinarySensor._attr_translation_key glass_sensor = (key ++ "_today")%string /\
  (PyStr.lowers_ascii PyStr.ascii_lower ->
   PyStr.is_ascii "Glass og metall" = true ->
   PyStr.is_ascii key = true /\
   PyStr.ascii_lower key = key /\
   String.length key = String.length "Glass og metall").
Proof.
  split; [reflexivity |]. split; [reflexivity |].
  apply (@BinarySensorMore.default_translation_key Examples.table
           PyStr.ascii_lower Examples.coordinator "Glass og metall"
           glass_sensor eq_refl eq_refl).
Defined.

(** X8 on the example setup. *)
Lemma sensor_unique_ids_witness :
  let hass_data := [("test_entry_id", Examples.coordinator_of None)] in
  exists refreshed entities,
    BinarySensor.async_setup_entry Examples.table PyStr.ascii_lower
      BinarySensorExamples.first_refresh hass_data Examples.entry
    = Ok (refreshed, entities) /\
    Coordinator.data refreshed = Some Examples.snapshot /\
    PyDict.wf (RenovasjonData.disposals_by_fraction Examples.snapshot) /\
    map BinarySensor._attr_unique_id entities
    = ["test_entry_id_Restavfall_today"; "test_entry_id_Matavfall_today"] /\
    NoDup (map BinarySensor._attr_unique_id entities).
Proof.
  intros hass_data.
  assert (Hwf : PyDict.wf
                  (RenovasjonData.disposals_by_fraction Examples.snapshot)).
  { unfold PyDict.wf. simpl.
    repeat constructor; simpl; intuition discriminate. }
  eexists. eexists.
  split; [reflexivity |]. split; [reflexivity |]. split; [exact Hwf |].
  split; [reflexivity |].
  apply (@BinarySensorMore.sensor_unique_ids_differ Examples.table PyStr.ascii_lower
           BinarySensorExamples.first_refresh hass_data Examples.entry
           _ Examples.snapshot _ eq_refl eq_refl Hwf).
Defined.

(** A registry of two entries with proper ids. *)
Definition two_homes : Registry :=
  [("home", Examples.coordinator); ("cabin", Examples.coordinator_of None)].

(** X10 on two entries. *)
Lemma refresh_each_witness :
  PyDict.wf two_homes /\
  Forall (fun entry_id => entry_id <> EmptyString) (PyDict.keys two_homes) /\
  ServiceMore.call_each ServiceFacts.same_data two_homes
    (PyDict.keys two_homes)
  = Service.async_refresh_service ServiceFacts.same_data two_homes [].
Proof.
  assert (Hwf : PyDict.wf two_homes).
  { unfold PyDict.wf. simpl.
    repeat constructor; simpl; intuition discriminate. }
  assert (Hids : Forall (fun entry_id => entry_id <> EmptyString)
                        (PyDict.keys two_homes))
    by (repeat constructor; discriminate).
  split; [exact Hwf |]. split; [exact Hids |].
  apply (@ServiceMore.refresh_each_is_refresh_all ServiceFacts.same_data
           two_homes Hwf Hids).
Defined.

(** A host that sets up and unloads the platforms without touching the
    registry, and a coordinator that starts without a snapshot. *)
Definition host_forward (hass : Hass) (entry : ConfigEntry.t)
    (platforms : list Platform) : result Hass := Ok hass.

Definition host_unload (hass : Hass) (entry : ConfigEntry.t)
    (platforms : list Platform) : result (Hass * bool) := Ok (hass, true).

Definition new_coordinator (hass : Hass) (entry : ConfigEntry.t)
  : Coordinator.t :=
  Coordinator.make entry None true None 0.

Definition empty_host : Hass := Lifecycle.make [] [] [].

Lemma host_forward_keeps (hass : Hass) (entry : ConfigEntry.t)
    (platforms : list Platform) (hass' : Hass) :
  host_forward hass entry platforms = Ok hass' -> host_keeps hass hass'.
Proof. intros H. injection H as <-. repeat split. Defined.

Lemma host_unload_keeps (hass : Hass) (entry : ConfigEntry.t)
    (platforms : list Platform) (hass' : Hass) (unload_ok : bool) :
  host_unload hass entry platforms = Ok (hass', unload_ok) ->
  host_keeps hass hass'.
Proof. intros H. injection H as <- _. repeat split. Defined.

(** The host after the example entry was set up on it. *)
Definition one_entry_host : Hass :=
  Lifecycle.make
    [(DOMAIN, [("test_entry_id", new_coordinator empty_host Examples.entry)])]
    [(DOMAIN, SERVICE_REFRESH)] ["test_entry_id"].

(** X11 on an empty host. *)
Lemma setup_registers_witness :
  (forall hass entry platforms hass',
     host_forward hass entry platforms = Ok hass' -> host_keeps hass hass') /\
  async_setup_entry new_coordinator host_forward empty_host Examples.entry
  = Ok (one_entry_host, true) /\
  has_service one_entry_host DOMAIN SERVICE_REFRESH = true /\
  registered one_entry_host = ["test_entry_id"] /\
  service_tracks_entries one_entry_host.
Proof.
  split; [exact host_forward_keeps |]. split; [reflexivity |].
  destruct (proj2 (@LifecycleFacts.setup_registers new_coordinator
                     host_forward host_forward_keeps empty_host
                     Examples.entry)
              one_entry_host true eq_refl)
    as [_ [Hhas [Hids [_ Htracks]]]].
  split; [exact Hhas |]. split; [exact Hids | exact Htracks].
Defined.

(** X12 on the host with the one entry: unloading it empties the registry
    and removes the service. *)
Lemma unload_outcome_witness :
  (forall hass entry platforms hass' unload_ok,
     host_unload hass entry platforms = Ok (hass', unload_ok) ->
     host_keeps hass hass') /\
  host_unload one_entry_host Examples.entry PLATFORMS
  = Ok (one_entry_host, true) /\
  exists after,
    async_unload_entry host_unload one_entry_host Examples.entry
    = Ok (after, true) /\
    registered after = [] /\
    has_service after DOMAIN SERVICE_REFRESH = false.
Proof.
  split; [exact host_unload_keeps |]. split; [reflexivity |].
  pose proof (@LifecycleFacts.unload_outcome host_unload host_unload_keeps
                one_entry_host one_entry_host Examples.entry true eq_refl)
    as Houtcome.
  cbv beta iota in Houtcome.
  change (LifecycleFacts.is_registered one_entry_host
            (ConfigEntry.entry_id Examples.entry)) with true in Houtcome.
  cbv beta iota in Houtcome.
  destruct Houtcome as [after [Hrun [Hids [Hhas _]]]].
  exists after. split; [exact Hrun |].
  assert (Hnone : registered after = []) by (rewrite Hids; reflexivity).
  split; [exact Hnone |]. rewrite Hhas, Hnone. reflexivity.
Defined.

(** X13 on the empty host: set up, then unloaded. *)
Lemma setup_then_unload_witness :
  (forall hass entry platforms hass',
     host_forward hass entry platforms = Ok hass' -> host_keeps hass hass') /\
  (forall hass entry platforms hass' unload_ok,
     host_unload hass entry platforms = Ok (hass', unload_ok) ->
     host_keeps hass hass') /\
  ~ In (ConfigEntry.entry_id Examples.entry) (registered empty_host) /\
  async_setup_entry new_coordinator host_forward empty_host Examples.entry
  = Ok (one_entry_host, true) /\
  host_unload one_entry_host Examples.entry PLATFORMS
  = Ok (one_entry_host, true) /\
  exists after,
    async_unload_entry host_unload one_entry_host Examples.entry
    = Ok (after, true) /\
    registered after = registered empty_host /\
    service_tracks_entries after.
Proof.
  split; [exact host_forward_keeps |]. split; [exact host_unload_keeps |].
  assert (Hnew : ~ In (ConfigEntry.entry_id Examples.entry)
                      (registered empty_host)) by (intros []).
  split; [exact Hnew |]. split; [reflexivity |]. split; [reflexivity |].
  apply (@LifecycleFacts.setup_then_unload new_coordinator host_forward
           host_unload host_forward_keeps host_unload_keeps empty_host
           one_entry_host one_entry_host Examples.entry Hnew eq_refl eq_refl).
Defined.

End MoreExamples.
